(** * Training performance analyser: a shallow embedding of [grapher.py]

    The script reads a list of activities (parsed JSON), turns the
    heart-rate stream of every activity into minutes per heart-rate
    zone, accumulates those minutes in a table with one row per
    calendar day, and runs the fitness / fatigue / performance
    recurrence over the table.

    Numbers.  Python floats are modelled by exact numbers: rationals
    ([Q]) up to the trimp column, reals ([R]) from the recurrence on,
    where the decay factors [np.exp(-1/R1)] and [np.exp(-1/R2)] enter.
    A missing value (pandas' NaN) is a value of its own.  Rounding of
    binary floating point is outside that model; the zone classifier,
    whose bands turn on it, is given a second time on IEEE 754 doubles
    ([Double.get_zone]).

    Exceptions.  A Python call either returns or raises; the embedding
    returns [Ok v] or [Raise e] and threads this through a small error
    monad.

    Libraries.  The calls into pandas and dateutil are modelled by
    what those libraries document: [drop_duplicates] compares values,
    [reindex] refuses duplicate labels, [interpolate] fills forward
    from the last number and leaves leading NaN alone, and a row taken
    with [loc] from a frame of one dtype is a view of the frame. *)

From Stdlib Require Import ZArith QArith List String Bool Lia Lqa Lra.
From Stdlib Require Import Reals Qreals Sorted.
From Stdlib Require SpecFloat.
Import ListNotations.

Local Open Scope string_scope.
Local Open Scope list_scope.
Local Open Scope Z_scope.

(** ** Exceptions and results *)

Inductive exn : Type :=
| TypeError
| KeyError
| ValueError
| IndexError
| ZeroDivisionError
| Unsupported.  (* input outside the modelled fragment of pandas *)

Inductive result (A : Type) : Type :=
| Ok (a : A)
| Raise (e : exn).

Arguments Ok {A} a.
Arguments Raise {A} e.

Definition bind {A B : Type} (m : result A) (k : A -> result B) : result B :=
  match m with
  | Ok a => k a
  | Raise e => Raise e
  end.

Notation "x <- m ;; k" := (bind m (fun x => k))
  (at level 61, m at next level, right associativity).

Fixpoint mapM {A B : Type} (f : A -> result B) (l : list A) : result (list B) :=
  match l with
  | [] => Ok []
  | a :: t => b <- f a ;; bs <- mapM f t ;; Ok (b :: bs)
  end.

Fixpoint foldM {A S : Type} (f : S -> A -> result S) (s : S) (l : list A)
  : result S :=
  match l with
  | [] => Ok s
  | a :: t => s' <- f s a ;; foldM f s' t
  end.

(** ** Parsed JSON, as [json.load] returns it

    An object is a Python dict (an association list here; [json.load]
    leaves no duplicate keys), an array a Python list, [JNull] is
    [None]. *)

#[local] Set Warnings "-register-all".

Inductive json : Type :=
| JNull
| JBool (b : bool)
| JInt (z : Z)
| JReal (q : Q)
| JStr (s : string)
| JArr (l : list json)
| JObj (kvs : list (string * json)).

Fixpoint assoc {A : Type} (k : string) (kvs : list (string * A)) : option A :=
  match kvs with
  | [] => None
  | (k', v) :: t => if String.eqb k k' then Some v else assoc k t
  end.

(** [d[k]] for a string key [k]: a dict looks the key up and raises
    [KeyError] when it is absent; every other JSON value raises
    [TypeError] (not subscriptable, or indices must be integers). *)
Definition getitem (d : json) (k : string) : result json :=
  match d with
  | JObj kvs => match assoc k kvs with
                | Some v => Ok v
                | None => Raise KeyError
                end
  | _ => Raise TypeError
  end.

Fixpoint chars (s : string) : list json :=
  match s with
  | EmptyString => []
  | String c t => JStr (String c EmptyString) :: chars t
  end.

(** Iterating over a value: a list yields its elements, a dict its
    keys, a string its characters; anything else is not iterable. *)
Definition iterate (v : json) : result (list json) :=
  match v with
  | JArr l => Ok l
  | JObj kvs => Ok (map (fun kv => JStr (fst kv)) kvs)
  | JStr s => Ok (chars s)
  | _ => Raise TypeError
  end.

(** [v == stream] where [stream] is a Python string. *)
Definition eq_str (v : json) (stream : string) : bool :=
  match v with
  | JStr s => String.eqb s stream
  | _ => false
  end.

(** [list(filter(lambda s: s["type"] == stream, streams))]: the
    predicate runs on every element, and the first exception ends the
    call. *)
Fixpoint filter_type (stream : string) (l : list json) : result (list json) :=
  match l with
  | [] => Ok []
  | s :: t =>
      ty <- getitem s "type" ;;
      rest <- filter_type stream t ;;
      Ok (if eq_str ty stream then s :: rest else rest)
  end.

(** The body of the [try] in [get_stream]. *)
Definition get_stream_body (data : json) (stream : string) : result json :=
  streams <- getitem data "streams" ;;
  elems <- iterate streams ;;
  matches <- filter_type stream elems ;;
  match matches with
  | [] => Ok JNull
  | m :: _ => getitem m "data"
  end.

(** [try: ... except TypeError: print(...); return None]. *)
Definition get_stream (data : json) (stream : string) : result json :=
  match get_stream_body data stream with
  | Raise TypeError => Ok JNull
  | r => r
  end.

(** ** Heart-rate values and zones *)

(** A cell of a float series: a number or NaN. *)
Inductive value : Type :=
| Num (q : Q)
| NaN.

Definition Qlt_bool (x y : Q) : bool := negb (Qle_bool y x).

(** Comparisons of a float with a constant: all false on NaN. *)
Definition vge (p : value) (c : Q) : bool :=
  match p with
  | Num q => Qle_bool c q
  | NaN => false
  end.

Definition vlt (p : value) (c : Q) : bool :=
  match p with
  | Num q => Qlt_bool q c
  | NaN => false
  end.

(** [(value * 100) / hr_max]; dividing by zero raises whatever the
    numerator is. *)
Definition percentage_of (x : value) (hr_max : Z) : result value :=
  if hr_max =? 0 then Raise ZeroDivisionError
  else Ok (match x with
           | Num v => Num ((v * 100) / inject_Z hr_max)%Q
           | NaN => NaN
           end).

Definition get_zone (x : value) (hr_max : Z) : result Z :=
  percentage <- percentage_of x hr_max ;;
  if vge percentage 50 && vlt percentage 60 then Ok 1
  else if vge percentage 60 && vlt percentage 70 then Ok 2
  else if vge percentage 70 && vlt percentage 80 then Ok 3
  else if vge percentage 80 && vlt percentage 90 then Ok 4
  else if vge percentage 90 then Ok 5
  else Ok 0.

(** ** The classifier on doubles

    Python's [float] is the IEEE 754 binary64 format: 53 bits of
    precision, every operation rounded to the nearest double, ties to
    even.  [SpecFloat] of the standard library specifies that
    arithmetic on [spec_float]: the two zeros, the two infinities, NaN,
    and the finite numbers [(-1)^s * m * 2^e]. *)

Module Double.

Definition prec : Z := 53.
Definition emax : Z := 1024.

Definition double : Type := SpecFloat.spec_float.

(** [float(z)] for a Python int [z]: the nearest double, an infinity
    where Python raises [OverflowError]. *)
Definition of_int (z : Z) : double :=
  SpecFloat.binary_normalize prec emax z 0 false.

Definition mul (x y : double) : double := SpecFloat.SFmul prec emax x y.
Definition div (x y : double) : double := SpecFloat.SFdiv prec emax x y.

(** [p >= c] and [p < c]: both false when [p] is NaN. *)
Definition ge (p c : double) : bool := SpecFloat.SFleb c p.
Definition lt (p c : double) : bool := SpecFloat.SFltb p c.

Definition is_finite (x : double) : bool :=
  match x with
  | SpecFloat.S754_zero _ | SpecFloat.S754_finite _ _ _ => true
  | _ => false
  end.

Definition is_nan (x : double) : bool :=
  match x with
  | SpecFloat.S754_nan => true
  | _ => false
  end.

(** The number a double stands for, when it stands for one. *)
Definition to_Q (x : double) : option Q :=
  match x with
  | SpecFloat.S754_zero _ => Some 0%Q
  | SpecFloat.S754_finite s m e =>
      Some ((if s then -1 else 1) * inject_Z (Zpos m) * 2 ^ e)%Q
  | _ => None
  end.

(** [(value * 100) / hr_max] for a float [value] and an int [hr_max]:
    the ints are converted, the product is rounded, then the quotient.
    Dividing by zero raises; so does an [hr_max] too large for a
    double ([OverflowError] in Python).  A heart rate held as an int
    [z] gives what [of_int z] gives as long as [z * 100] is below
    [2^53]: the product is exact either way, and the quotient of two
    ints is rounded once, as that of two doubles is. *)
Definition percentage (value : double) (hr_max : Z) : result double :=
  if hr_max =? 0 then Raise ZeroDivisionError
  else if is_finite (of_int hr_max)
       then Ok (div (mul value (of_int 100)) (of_int hr_max))
       else Raise Unsupported.

Definition get_zone (value : double) (hr_max : Z) : result Z :=
  percentage <- percentage value hr_max ;;
  if ge percentage (of_int 50) && lt percentage (of_int 60) then Ok 1
  else if ge percentage (of_int 60) && lt percentage (of_int 70) then Ok 2
  else if ge percentage (of_int 70) && lt percentage (of_int 80) then Ok 3
  else if ge percentage (of_int 80) && lt percentage (of_int 90) then Ok 4
  else if ge percentage (of_int 90) then Ok 5
  else Ok 0.

End Double.

(** ** Series: a column of values with an index of labels *)

Definition series (A : Type) : Type := list (Z * A).

Definition index {A : Type} (s : series A) : list Z := map fst s.
Definition values {A : Type} (s : series A) : list A := map snd s.

(** [pd.Series(hr_stream, index = time_stream)]. *)
Definition Series (hr_stream : list value) (time_stream : list Z)
  : result (series value) :=
  if Nat.eqb (List.length hr_stream) (List.length time_stream)
  then Ok (combine time_stream hr_stream)
  else Raise ValueError.

Definition veqb (a b : value) : bool :=
  match a, b with
  | Num x, Num y => Qeq_bool x y
  | NaN, NaN => true
  | _, _ => false
  end.

(** [Series.drop_duplicates()]: a row is dropped when its VALUE has
    already occurred in an earlier row ([keep = "first"]); the index
    plays no part. *)
Fixpoint drop_duplicates_from (seen : list value) (s : series value)
  : series value :=
  match s with
  | [] => []
  | (t, v) :: rest =>
      if existsb (veqb v) seen then drop_duplicates_from seen rest
      else (t, v) :: drop_duplicates_from (v :: seen) rest
  end.

Definition drop_duplicates (s : series value) : series value :=
  drop_duplicates_from [] s.

(** [max(time_stream)]: [ValueError] on an empty list. *)
Definition py_max (l : list Z) : result Z :=
  match l with
  | [] => Raise ValueError
  | x :: t => Ok (fold_left Z.max t x)
  end.

(** [range(n)]: empty when [n <= 0]. *)
Definition range (n : Z) : list Z := map Z.of_nat (seq 0 (Z.to_nat n)).

Fixpoint lookup {A : Type} (t : Z) (s : series A) : option A :=
  match s with
  | [] => None
  | (t', v) :: rest => if t =? t' then Some v else lookup t rest
  end.

Fixpoint is_unique (l : list Z) : bool :=
  match l with
  | [] => true
  | x :: t => negb (existsb (Z.eqb x) t) && is_unique t
  end.

(** [Series.reindex(target)]: refuses an index with duplicate labels;
    otherwise every label of the target takes the value the series
    has at that label, NaN when the series has none.  Labels of the
    series outside the target are dropped. *)
Definition reindex (s : series value) (target : list Z)
  : result (series value) :=
  if is_unique (index s)
  then Ok (map (fun t => (t, match lookup t s with
                             | Some v => v
                             | None => NaN
                             end)) target)
  else Raise ValueError.

(** The first number of a list of cells, with the count of NaN
    before it. *)
Fixpoint next_valid (l : list value) : option (nat * Q) :=
  match l with
  | [] => None
  | Num b :: _ => Some (O, b)
  | NaN :: t => match next_valid t with
                | Some (k, b) => Some (S k, b)
                | None => None
                end
  end.

(** Cells after a number [a] seen [j] rows ago.  A NaN with a number
    [b] coming [k + 1] rows later lies on the line from [a] to [b];
    a NaN with no number after it takes [a]. *)
Fixpoint interpolate_after (a : Q) (j : nat) (l : list value) : list value :=
  match l with
  | [] => []
  | Num v :: t => Num v :: interpolate_after v 1 t
  | NaN :: t =>
      Num (match next_valid t with
           | Some (k, b) =>
               a + (b - a) * inject_Z (Z.of_nat j)
                   / inject_Z (Z.of_nat (j + k + 1))
           | None => a
           end)%Q
      :: interpolate_after a (S j) t
  end.

(** NaN cells before the first number stay NaN. *)
Fixpoint interpolate_values (l : list value) : list value :=
  match l with
  | [] => []
  | NaN :: t => NaN :: interpolate_values t
  | Num v :: t => Num v :: interpolate_after v 1 t
  end.

(** [Series.interpolate(method = "linear")], with pandas' defaults
    ([limit_direction = "forward"], no [limit_area]): rows count as
    equally spaced. *)
Definition interpolate (s : series value) : series value :=
  combine (index s) (interpolate_values (values s)).

(** [Series.apply(f)]. *)
Fixpoint apply {A B : Type} (f : A -> result B) (s : series A)
  : result (series B) :=
  match s with
  | [] => Ok []
  | (t, v) :: rest => z <- f v ;; zs <- apply f rest ;; Ok ((t, z) :: zs)
  end.

(** [series.groupby(series.values).aggregate(lambda x: len(x) / 60)]:
    one entry per value that occurs, holding the number of its rows
    divided by 60. *)
Definition count (z : Z) (zs : list Z) : nat :=
  List.length (filter (Z.eqb z) zs).

Definition aggregate (s : series Z) : series Q :=
  map (fun z => (z, inject_Z (Z.of_nat (count z (values s))) / 60)%Q)
      (nodup Z.eq_dec (values s)).

(** ** One activity: the per-second series and the minutes per zone *)

(** Lines 47 to 54: the series built from the two streams, without
    duplicates, reindexed over [range(max(time_stream))] and
    interpolated. *)
Definition per_second_series (time_stream : list Z) (hr_stream : list value)
  : result (series value) :=
  series <- Series hr_stream time_stream ;;
  let series := drop_duplicates series in
  stop <- py_max time_stream ;;
  series <- reindex series (range stop) ;;
  Ok (interpolate series).

(** Lines 47 to 59. *)
Definition zone_minutes (time_stream : list Z) (hr_stream : list value)
    (hr_max : Z) : result (series Q) :=
  series <- per_second_series time_stream hr_stream ;;
  series <- apply (fun x => get_zone x hr_max) series ;;
  Ok (aggregate series).

(** ** The daily table

    A row of the frame while activities are folded in: every cell is
    unset (NaN, [None] here) until an activity writes it.  The columns
    trimp, fitness, fatigue and form stay unset during that phase and
    are not represented. *)

Record row : Type := mkRow {
  raw_id : option json;
  raw_name : option json;
  raw_tz0 : option Q;
  raw_tz1 : option Q;
  raw_tz2 : option Q;
  raw_tz3 : option Q;
  raw_tz4 : option Q;
  raw_tz5 : option Q
}.

Definition empty_row : row := mkRow None None None None None None None None.

(** [row["tz%i" % key]], read and written. *)
Definition get_tz (key : Z) (r : row) : option Q :=
  match key with
  | 0 => raw_tz0 r
  | 1 => raw_tz1 r
  | 2 => raw_tz2 r
  | 3 => raw_tz3 r
  | 4 => raw_tz4 r
  | 5 => raw_tz5 r
  | _ => None
  end.

Definition set_tz (key : Z) (v : option Q) (r : row) : row :=
  let '(mkRow i n a b c d e f) := r in
  match key with
  | 0 => mkRow i n v b c d e f
  | 1 => mkRow i n a v c d e f
  | 2 => mkRow i n a b v d e f
  | 3 => mkRow i n a b c v e f
  | 4 => mkRow i n a b c d v f
  | 5 => mkRow i n a b c d e v
  | _ => r
  end.

Definition set_id_name (i n : json) (r : row) : row :=
  mkRow (Some i) (Some n) (raw_tz0 r) (raw_tz1 r) (raw_tz2 r) (raw_tz3 r)
        (raw_tz4 r) (raw_tz5 r).

(** The frame: rows in index order, labelled by calendar day (a day
    number). *)
Definition data_frame : Type := list (Z * row).

(** [pd.date_range(start_date, end_date)]: every day from the first
    to the last, both included; empty when the last precedes the
    first. *)
Definition date_range (start_date end_date : Z) : list Z :=
  map (fun i => start_date + Z.of_nat i)
      (seq 0 (Z.to_nat (end_date - start_date + 1))).

(** [row = data_frame.loc[label]] followed by writes to [row]: the
    label must be in the index ([KeyError] otherwise), and the writes
    land in the frame, [row] being a view of it. *)
Fixpoint update_loc (label : Z) (f : row -> result row) (df : data_frame)
  : result data_frame :=
  match df with
  | [] => Raise KeyError
  | (d, r) :: rest =>
      if label =? d then r' <- f r ;; Ok ((d, r') :: rest)
      else rest' <- update_loc label f rest ;; Ok ((d, r) :: rest')
  end.

(** One turn of [for key in range(0, 6)]. *)
Definition add_zone (agg : series Q) (r : row) (key : Z) : row :=
  let current := get_tz key r in
  let tz := match lookup key agg with
            | Some m => m
            | None => 0%Q
            end in
  set_tz key (Some (match current with
                    | Some c => c
                    | None => 0
                    end + tz)%Q) r.

(** The streams the model reads: the time stream a list of integers,
    the heart-rate stream a list of numbers. *)
Definition decode_time (v : json) : result (list Z) :=
  match v with
  | JArr l => mapM (fun x => match x with
                             | JInt z => Ok z
                             | _ => Raise Unsupported
                             end) l
  | _ => Raise Unsupported
  end.

Definition decode_hr (v : json) : result (list value) :=
  match v with
  | JArr l => mapM (fun x => match x with
                             | JInt z => Ok (Num (inject_Z z))
                             | JReal q => Ok (Num q)
                             | _ => Raise Unsupported
                             end) l
  | _ => Raise Unsupported
  end.

Definition is_None (v : json) : bool :=
  match v with
  | JNull => true
  | _ => false
  end.

Section Pipeline.

(** [dateutil.parser.parse(s).date()], as a day number; the parser is
    a library of its own and stays a parameter. *)
Variable parse_date : string -> result Z.

Definition date_of (activity : json) : result Z :=
  v <- getitem activity "start_date" ;;
  match v with
  | JStr s => parse_date s
  | _ => Raise TypeError
  end.

Definition process_activity (df : data_frame) (activity : json) (hr_max : Z)
  : result data_frame :=
  time_stream <- get_stream activity "time" ;;
  hr_stream <- get_stream activity "heartrate" ;;
  if is_None time_stream || is_None hr_stream then Ok df
  else
    times <- decode_time time_stream ;;
    hrs <- decode_hr hr_stream ;;
    agg <- zone_minutes times hrs hr_max ;;
    activity_date <- date_of activity ;;
    update_loc activity_date
      (fun r =>
         i <- getitem activity "id" ;;
         n <- getitem activity "name" ;;
         Ok (fold_left (add_zone agg) (range 6) (set_id_name i n r)))
      df.

(** Lines 98 to 101: the frame starts at the date of [data[0]] and
    ends today, all cells unset. *)
Definition make_frame (data : list json) (today : Z) : result data_frame :=
  match data with
  | [] => Raise IndexError
  | first :: _ =>
      start_date <- date_of first ;;
      Ok (map (fun d => (d, empty_row)) (date_range start_date today))
  end.

(** Lines 98 to 105. *)
Definition merge_activities (data : list json) (hr_max today : Z)
  : result data_frame :=
  df <- make_frame data today ;;
  foldM (fun df activity => process_activity df activity hr_max) df data.

End Pipeline.

(** ** After the merge: fillna, trimp, and the recurrence *)

(** A row once [fillna(0)] has run.  The form column is 0 from then
    on; fitness and fatigue are 0 until the recurrence writes them. *)
Record day : Type := mkDay {
  day_id : json;
  day_name : json;
  tz0 : Q;
  tz1 : Q;
  tz2 : Q;
  tz3 : Q;
  tz4 : Q;
  tz5 : Q;
  trimp : Q
}.

Definition fill {A : Type} (zero : A) (c : option A) : A :=
  match c with
  | Some a => a
  | None => zero
  end.

Definition fillna_row (r : row) : day :=
  mkDay (fill (JInt 0) (raw_id r)) (fill (JInt 0) (raw_name r))
        (fill 0%Q (raw_tz0 r)) (fill 0%Q (raw_tz1 r)) (fill 0%Q (raw_tz2 r))
        (fill 0%Q (raw_tz3 r)) (fill 0%Q (raw_tz4 r)) (fill 0%Q (raw_tz5 r))
        0%Q.

Definition fillna (df : data_frame) : list (Z * day) :=
  map (fun dr => (fst dr, fillna_row (snd dr))) df.

(** Line 111. *)
Definition trimp_of (d : day) : Q :=
  (tz1 d + 2 * tz2 d + 3 * tz3 d + 4 * tz4 d + 5 * tz5 d)%Q.

Definition set_trimp (d : day) : day :=
  mkDay (day_id d) (day_name d) (tz0 d) (tz1 d) (tz2 d) (tz3 d) (tz4 d)
        (tz5 d) (trimp_of d).

Definition trimp_column (df : list (Z * day)) : list (Z * day) :=
  map (fun dr => (fst dr, set_trimp (snd dr))) df.

Definition R1 : Z := 60.
Definition R2 : Z := 5.
Definition K1 : R := 0.0076%R.
Definition K2 : R := 0.0020%R.

(** A row of the finished table. *)
Record perf : Type := mkPerf {
  base : day;
  fitness : R;
  fatigue : R;
  performance : R
}.

(** The loop of [calculate_performance], from given accumulators. *)
Fixpoint calculate_performance_from (fitness fatigue : R)
    (rows : list (Z * day)) : list (Z * perf) :=
  match rows with
  | [] => []
  | (index, row) :: rest =>
      let fitness := (fitness * exp (-1 / IZR R1) + Q2R (trimp row))%R in
      let fatigue := (fatigue * exp (-1 / IZR R2) + Q2R (trimp row))%R in
      let performance := (fitness * K1 - fatigue * K2)%R in
      (index, mkPerf row fitness fatigue performance)
        :: calculate_performance_from fitness fatigue rest
  end.

Definition calculate_performance (df : list (Z * day)) : list (Z * perf) :=
  calculate_performance_from 0 0 df.

(** Lines 108 to 113. *)
Definition finish (df : data_frame) : list (Z * perf) :=
  calculate_performance (trimp_column (fillna df)).

(** The script from the parsed input to the table it plots. *)
Definition main (parse_date : string -> result Z) (data : list json)
    (hr_max today : Z) : result (list (Z * perf)) :=
  df <- merge_activities parse_date data hr_max today ;;
  Ok (finish df).

(** ** Inputs of the examples *)

(** An activity record as the export holds it. *)
Definition activity (id : Z) (name start_date : string)
    (time_stream heartrate_stream : list Z) : json :=
  JObj [("id", JInt id);
        ("name", JStr name);
        ("start_date", JStr start_date);
        ("streams",
          JArr [JObj [("type", JStr "time");
                      ("data", JArr (map JInt time_stream))];
                JObj [("type", JStr "heartrate");
                      ("data", JArr (map JInt heartrate_stream))]])].

(** The dates of the examples with their day numbers (proleptic
    Gregorian ordinals, as [date.toordinal()] gives them). *)
Definition calendar (s : string) : result Z :=
  if String.eqb s "2023-01-01T08:00:00Z" then Ok 738521
  else if String.eqb s "2023-01-05T08:00:00Z" then Ok 738525
  else if String.eqb s "2023-01-10T08:00:00Z" then Ok 738530
  else Raise ValueError.

Definition hr (z : Z) : value := Num (inject_Z z).

(** The activity of the end-to-end scenario. *)
Definition six_seconds_at_90 : json :=
  activity 1 "Run" "2023-01-01T08:00:00Z" [0; 1; 2; 3; 4; 5]
           [90; 90; 90; 90; 90; 90].

(** The row the activity of the scenario leaves on its day. *)
Definition scenario_row : row :=
  fold_left (add_zone [(1, (5 # 60)%Q)]) (range 6)
            (set_id_name (JInt 1) (JStr "Run") empty_row).

(** ** Notions the statements use *)

(** Whether a cell is NaN. *)
Definition is_nan (x : value) : bool :=
  match x with
  | NaN => true
  | Num _ => false
  end.

(** A day with another value in its tz0 column. *)
Definition with_tz0 (q : Q) (d : day) : day :=
  mkDay (day_id d) (day_name d) q (tz1 d) (tz2 d) (tz3 d) (tz4 d) (tz5 d)
        (trimp d).

(** The row of a day nothing was written to, once filled. *)
Definition zero_day : day :=
  mkDay (JInt 0) (JInt 0) 0%Q 0%Q 0%Q 0%Q 0%Q 0%Q 0%Q.

(** The accumulator a row starts from: the value the row before it
    stored, and [start] for the first row. *)
Definition previous (f : perf -> R) (start : R) (t : list (Z * perf))
    (i : nat) : R :=
  match i with
  | O => start
  | S j => match nth_error t j with
           | Some (_, q) => f q
           | None => 0%R
           end
  end.

(** ** Notions the further statements use *)

(** Whether a stream entry is of the type asked for. *)
Definition has_type (stream : string) (s : json) : bool :=
  match getitem s "type" with
  | Ok ty => eq_str ty stream
  | Raise _ => false
  end.

(** The writes of one activity to the row of its day: id and name,
    then the six turns of the loop over the zones. *)
Definition written (agg : series Q) (i n : json) (r : row) : row :=
  fold_left (add_zone agg) (range 6) (set_id_name i n r).

(** The sum of a column. *)
Definition total (s : series Q) : Q := fold_right Qplus 0%Q (values s).

(** Two cells that hold the same number, or are both unset. *)
Definition cell_eq (a b : option Q) : Prop :=
  match a, b with
  | Some x, Some y => (x == y)%Q
  | None, None => True
  | _, _ => False
  end.

(** Two rows with the same minutes in every zone. *)
Definition same_minutes (r1 r2 : row) : Prop :=
  forall key, 0 <= key <= 5 -> cell_eq (get_tz key r1) (get_tz key r2).

(** The minutes per zone an activity brings, [None] when it is
    skipped for want of a stream: lines 41 to 59 of
    [process_activity], which do not read the frame. *)
Definition activity_minutes (activity : json) (hr_max : Z)
  : result (option (series Q)) :=
  time_stream <- get_stream activity "time" ;;
  hr_stream <- get_stream activity "heartrate" ;;
  if is_None time_stream || is_None hr_stream then Ok None
  else
    times <- decode_time time_stream ;;
    hrs <- decode_hr hr_stream ;;
    agg <- zone_minutes times hrs hr_max ;;
    Ok (Some agg).

(** The minutes an activity brings to one zone: 0 when the zone is
    absent from its aggregate. *)
Definition minutes_in (agg : series Q) (key : Z) : Q :=
  match lookup key agg with
  | Some m => m
  | None => 0%Q
  end.

(** A row none of whose minutes is negative. *)
Definition row_nonneg (r : row) : Prop :=
  forall key, 0 <= key <= 5 -> (0 <= fill 0 (get_tz key r))%Q.

(** ** Notions the statements on doubles use *)

(** The double nearest to 138.6 (the literal [138.6] in Python). *)
Definition hr_138_6 : Double.double :=
  Double.div (Double.of_int 1386) (Double.of_int 10).

(** Whether the two classifiers agree on all the whole heart rates
    and maxima listed. *)
Definition agree_on (rates maxima : list Z) : bool :=
  forallb (fun m =>
             forallb (fun v =>
                        match Double.get_zone (Double.of_int v) m,
                              get_zone (hr v) m with
                        | Ok z, Ok z' => z =? z'
                        | _, _ => false
                        end)
                     rates)
          maxima.

(** ** Notions the statements on missing values use *)





(** ** Notions the statements on the maximum heart rate use *)



(** * Properties *)

(** ** The zone classifier *)

Lemma Qle_bool_false (x y : Q) : Qle_bool x y = false <-> (y < x)%Q.
Proof.
  split; intro H.
  - apply Qnot_le_lt. intro Hle. apply Qle_bool_iff in Hle. congruence.
  - destruct (Qle_bool x y) eqn:E; trivial.
    apply Qle_bool_iff in E. exfalso. apply (Qlt_not_le _ _ H E).
Qed.

Ltac qlra := Lqa.lra.
Ltac rlra := Lra.lra.

Ltac bool_to_Q :=
  repeat match goal with
    | H : Qle_bool _ _ = true |- _ => apply Qle_bool_iff in H
    | H : Qle_bool _ _ = false |- _ => apply Qle_bool_false in H
    end.

Lemma percentage_spec (v : Q) (m : Z) :
  m <> 0 -> (v * 100 / inject_Z m == v / inject_Z m * 100)%Q.
Proof.
  intro Hm. field. intro H. apply Hm.
  unfold Qeq in H. simpl in H. lia.
Qed.

(** In exact arithmetic: for a heart rate [v] and a maximum [m > 0],
    [get_zone] returns one zone among 0..5, and which one is fixed by
    the band of [percentage = v / m * 100]: below 50 zone 0, from 50
    up to 60 zone 1, from 60 up to 70 zone 2, from 70 up to 80 zone 3,
    from 80 up to 90 zone 4, 90 and above zone 5; a boundary belongs
    to the zone it opens. *)
Theorem get_zone_bands (v : Q) (m : Z) (Hm : 0 < m) :
  let percentage := (v / inject_Z m * 100)%Q in
  exists z : Z,
    get_zone (Num v) m = Ok z /\
    In z [0; 1; 2; 3; 4; 5] /\
    (z = 0 <-> (percentage < 50)%Q) /\
    (z = 1 <-> (50 <= percentage /\ percentage < 60)%Q) /\
    (z = 2 <-> (60 <= percentage /\ percentage < 70)%Q) /\
    (z = 3 <-> (70 <= percentage /\ percentage < 80)%Q) /\
    (z = 4 <-> (80 <= percentage /\ percentage < 90)%Q) /\
    (z = 5 <-> (90 <= percentage)%Q).
Proof.
  intro percentage.
  assert (Hne : m <> 0) by lia.
  pose proof (@percentage_spec v m Hne) as Hp. fold percentage in Hp.
  unfold get_zone, percentage_of.
  destruct (Z.eqb_spec m 0) as [E | _]; [contradiction |].
  cbn [bind vge vlt]. unfold Qlt_bool.
  set (p := (v * 100 / inject_Z m)%Q) in *.
  clearbody p percentage.
  destruct (Qle_bool 50 p) eqn:H50; destruct (Qle_bool 60 p) eqn:H60;
    destruct (Qle_bool 70 p) eqn:H70; destruct (Qle_bool 80 p) eqn:H80;
    destruct (Qle_bool 90 p) eqn:H90; cbn [andb negb];
    eexists; (split; [reflexivity |]); bool_to_Q;
    (split; [simpl; tauto |]);
    repeat split;
    try (intros [? ?]); intros; try reflexivity; try discriminate; try qlra;
    exfalso; qlra.
Qed.

(** The band theorem at 90 beats per minute with a maximum of 180:
    50 percent, the boundary that opens zone 1. *)
Lemma get_zone_bands_witness :
  0 < 180 /\
  exists z : Z, get_zone (Num 90) 180 = Ok z /\ z = 1.
Proof.
  split; [lia |].
  destruct (@get_zone_bands 90 180) as (z & Hz & _ & _ & H1 & _); [lia |].
  exists z. split; [exact Hz |].
  apply H1. split; vm_compute; congruence.
Defined.

(** ** The zone classifier on doubles *)

Lemma SFcompare_antisym (x y : Double.double) :
  SpecFloat.SFcompare x y = option_map CompOpp (SpecFloat.SFcompare y x).
Proof.
  destruct x as [[] | [] | | [] m1 e1], y as [[] | [] | | [] m2 e2]; cbn;
    try reflexivity.
  all: change (Pos.compare_cont Eq) with Pos.compare;
       rewrite (Z.compare_antisym e1 e2), (Pos.compare_antisym m1 m2);
       destruct (e1 ?= e2); cbn; try reflexivity;
       destruct (m1 ?= m2)%positive; reflexivity.
Qed.

(** Away from NaN, [p < c] is the negation of [p >= c]. *)
Lemma double_lt_ge (p c : Double.double) :
  Double.is_nan p = false -> Double.is_nan c = false ->
  Double.lt p c = negb (Double.ge p c).
Proof.
  intros Hp Hc. unfold Double.lt, Double.ge, SpecFloat.SFltb, SpecFloat.SFleb.
  rewrite (SFcompare_antisym p c).
  destruct (SpecFloat.SFcompare c p) as [[] |] eqn:E; cbn; try reflexivity.
  destruct c as [[] | [] | | [] m1 e1], p as [[] | [] | | [] m2 e2];
    cbn in E, Hp, Hc; congruence.
Qed.

(** [p >= b] gives [p >= a] for [a < b]. *)
Lemma double_ge_trans (a b p : Double.double) :
  SpecFloat.SFcompare a b = Some Lt ->
  Double.ge p b = true -> Double.ge p a = true.
Proof.
  unfold Double.ge, SpecFloat.SFleb.
  destruct a as [[] | [] | | [] m1 e1], b as [[] | [] | | [] m2 e2],
           p as [[] | [] | | [] m3 e3];
    cbn; try discriminate; try reflexivity; intros H1 H2.
  all: change (Pos.compare_cont Eq) with Pos.compare in *.
  all: destruct (Z.compare_spec e1 e2); try discriminate;
       destruct (Z.compare_spec e2 e3); try discriminate;
       destruct (Z.compare_spec e1 e3); try reflexivity; try lia; subst;
       try (destruct (Pos.compare_spec m1 m2); try discriminate);
       try (destruct (Pos.compare_spec m2 m3); try discriminate);
       try (destruct (Pos.compare_spec m1 m3); try reflexivity); subst; try lia.
Qed.

Lemma double_NaN_compares_false (c : Double.double) :
  Double.ge SpecFloat.S754_nan c = false /\
  Double.lt SpecFloat.S754_nan c = false.
Proof. destruct c; split; reflexivity. Qed.

(** The claim of C3 fails on doubles.  For the heart rate 138.6 and
    the maximum 154 the percentage is below 90 (the double nearest to
    138.6 lies below it), which is zone 4; the script's product
    [138.6 * 100] rounds to 13860.0, the quotient is 90.0, and the
    classifier returns zone 5. *)
Lemma double_rounding_crosses_90 :
  exists q,
    Double.to_Q hr_138_6 = Some q /\
    (80 <= q / inject_Z 154 * 100)%Q /\ (q / inject_Z 154 * 100 < 90)%Q /\
    get_zone (Num q) 154 = Ok 4 /\
    Double.percentage hr_138_6 154 = Ok (Double.of_int 90) /\
    Double.get_zone hr_138_6 154 = Ok 5.
Proof.
  eexists. split; [vm_compute; reflexivity |].
  repeat split; vm_compute; congruence.
Qed.

(** C3, amended. For a double heart rate [v] and a maximum [m > 0]
    that converts to a finite double, the classifier returns one zone
    among 0..5, and which one is fixed by the band of the percentage
    as the script computes it, [(v * 100) / m] with the product and
    the quotient each rounded to the nearest double: below 50 (or
    NaN) zone 0, from 50 up to 60 zone 1, from 60 up to 70 zone 2,
    from 70 up to 80 zone 3, from 80 up to 90 zone 4, 90 and above
    zone 5; a boundary belongs to the zone it opens. *)
Theorem get_zone_double_bands (v : Double.double) (m : Z) (Hm : 0 < m)
    (Hfin : Double.is_finite (Double.of_int m) = true) :
  let percentage :=
    Double.div (Double.mul v (Double.of_int 100)) (Double.of_int m) in
  exists z : Z,
    Double.get_zone v m = Ok z /\
    In z [0; 1; 2; 3; 4; 5] /\
    (z = 0 <-> Double.lt percentage (Double.of_int 50) = true \/
               Double.is_nan percentage = true) /\
    (z = 1 <-> Double.ge percentage (Double.of_int 50) = true /\
               Double.lt percentage (Double.of_int 60) = true) /\
    (z = 2 <-> Double.ge percentage (Double.of_int 60) = true /\
               Double.lt percentage (Double.of_int 70) = true) /\
    (z = 3 <-> Double.ge percentage (Double.of_int 70) = true /\
               Double.lt percentage (Double.of_int 80) = true) /\
    (z = 4 <-> Double.ge percentage (Double.of_int 80) = true /\
               Double.lt percentage (Double.of_int 90) = true) /\
    (z = 5 <-> Double.ge percentage (Double.of_int 90) = true).
Proof.
  intro p. unfold Double.get_zone, Double.percentage.
  destruct (Z.eqb_spec m 0) as [E | _]; [lia |].
  rewrite Hfin. cbn [bind]. fold p. clearbody p.
  destruct (Double.is_nan p) eqn:Enan.
  - destruct p; try discriminate.
    repeat match goal with
           | |- context [Double.ge SpecFloat.S754_nan ?c] =>
               rewrite (proj1 (double_NaN_compares_false c))
           | |- context [Double.lt SpecFloat.S754_nan ?c] =>
               rewrite (proj2 (double_NaN_compares_false c))
           end.
    cbn [andb]. exists 0. split; [reflexivity |].
    split; [now left |].
    repeat split; try (intros [? ?]); intros; try discriminate; auto.
  - rewrite !(double_lt_ge p) by (assumption || reflexivity).
    pose proof (double_ge_trans (Double.of_int 50) (Double.of_int 60) p eq_refl)
      as H56.
    pose proof (double_ge_trans (Double.of_int 60) (Double.of_int 70) p eq_refl)
      as H67.
    pose proof (double_ge_trans (Double.of_int 70) (Double.of_int 80) p eq_refl)
      as H78.
    pose proof (double_ge_trans (Double.of_int 80) (Double.of_int 90) p eq_refl)
      as H89.
    destruct (Double.ge p (Double.of_int 90)) eqn:H90;
      [specialize (H89 eq_refl) |];
      (destruct (Double.ge p (Double.of_int 80)) eqn:H80;
       [specialize (H78 eq_refl) | try discriminate]);
      (destruct (Double.ge p (Double.of_int 70)) eqn:H70;
       [specialize (H67 eq_refl) | try discriminate]);
      (destruct (Double.ge p (Double.of_int 60)) eqn:H60;
       [specialize (H56 eq_refl) | try discriminate]);
      (destruct (Double.ge p (Double.of_int 50)) eqn:H50;
       [| try discriminate]);
      cbn [andb negb];
      eexists; (split; [reflexivity |]);
      (split; [simpl; tauto |]);
      repeat split;
      try (intros [? | ?]); try (intros [? ?]); intros;
      try reflexivity; try discriminate; auto.
Qed.

(** The band theorem at 90 beats per minute with a maximum of 180:
    the percentage is 50.0, the boundary that opens zone 1. *)
Lemma get_zone_double_bands_witness :
  0 < 180 /\
  Double.is_finite (Double.of_int 180) = true /\
  exists z : Z, Double.get_zone (Double.of_int 90) 180 = Ok z /\ z = 1.
Proof.
  assert (Hm : 0 < 180) by lia.
  assert (Hfin : Double.is_finite (Double.of_int 180) = true) by reflexivity.
  split; [exact Hm |]. split; [exact Hfin |].
  pose proof (get_zone_double_bands (Double.of_int 90) 180 Hm Hfin) as H.
  cbv zeta in H. destruct H as (z & Hz & _ & _ & H1 & _).
  exists z. split; [exact Hz |].
  apply H1. split; vm_compute; reflexivity.
Defined.

(** On whole heart rates from 0 to 255 and maxima from 150 to 210 the
    classifier on doubles and the classifier in exact arithmetic
    return the same zone. *)
Lemma classifiers_agree_on_whole_rates :
  agree_on (map Z.of_nat (seq 0 256)) (map Z.of_nat (seq 150 61)) = true.
Proof. vm_compute. reflexivity. Qed.

(** ** Missing values in the classifier *)

Lemma get_zone_NaN (m : Z) : m <> 0 -> get_zone NaN m = Ok 0.
Proof.
  intro Hm. unfold get_zone, percentage_of.
  destruct (Z.eqb_spec m 0); [contradiction | reflexivity].
Qed.

Lemma apply_NaN_zone (m : Z) (s : series value) (zs : series Z) :
  m <> 0 ->
  apply (fun x => get_zone x m) s = Ok zs ->
  forall t, In (t, NaN) s -> In (t, 0) zs.
Proof.
  intro Hm. revert zs.
  induction s as [| [t' v] rest IH]; intros zs Hzs t Hin; [destruct Hin |].
  cbn [apply] in Hzs.
  destruct (get_zone v m) as [z |] eqn:Ez; [| discriminate].
  destruct (apply _ rest) as [zs' |] eqn:Er; [| discriminate].
  cbn [bind] in Hzs. injection Hzs as <-.
  destruct Hin as [Heq | Hin].
  - injection Heq as -> ->. rewrite get_zone_NaN in Ez by assumption.
    injection Ez as <-. now left.
  - right. now apply (IH zs').
Qed.

Lemma apply_NaN_count (m : Z) (s : series value) (zs : series Z) :
  m <> 0 ->
  apply (fun x => get_zone x m) s = Ok zs ->
  (List.length (filter is_nan (values s)) <= count 0 (values zs))%nat.
Proof.
  intro Hm. revert zs.
  induction s as [| [t' v] rest IH]; intros zs Hzs.
  - injection Hzs as <-. apply Nat.le_refl.
  - cbn [apply] in Hzs.
    destruct (get_zone v m) as [z |] eqn:Ez; [| discriminate].
    destruct (apply _ rest) as [zs' |] eqn:Er; [| discriminate].
    cbn [bind] in Hzs. injection Hzs as <-.
    specialize (IH zs' eq_refl). unfold count in *.
    cbn [values map snd filter]. fold (values rest). fold (values zs').
    destruct v as [q |]; cbn [is_nan].
    + destruct (0 =? z); cbn [List.length]; lia.
    + rewrite get_zone_NaN in Ez by assumption. injection Ez as <-.
      cbn [Z.eqb List.length]. lia.
Qed.

(** ** The stream extractor *)

Lemma filter_type_raises (stream : string) (l : list json) (e : exn) :
  filter_type stream l = Raise e -> e = TypeError \/ e = KeyError.
Proof.
  induction l as [| s t IH]; cbn [filter_type]; [discriminate |].
  destruct s; cbn [getitem bind]; try (intros [= <-]; now left).
  destruct (assoc "type" kvs); cbn [bind]; [| intros [= <-]; now right].
  destruct (filter_type stream t); cbn [bind]; [discriminate |].
  intros [= <-]. now apply IH.
Qed.

(** What [get_stream] lets through is a [KeyError], nothing else. *)
Lemma get_stream_raises (data : json) (stream : string) (e : exn) :
  get_stream data stream = Raise e -> e = KeyError.
Proof.
  unfold get_stream.
  destruct (get_stream_body data stream) as [v | e'] eqn:Eb; [discriminate |].
  assert (He : e' = TypeError \/ e' = KeyError).
  { unfold get_stream_body in Eb.
    destruct (getitem data "streams") as [streams | e1] eqn:E1; cbn [bind] in Eb.
    - destruct (iterate streams) as [elems | e2] eqn:E2; cbn [bind] in Eb.
      + destruct (filter_type stream elems) as [ms | e3] eqn:E3;
          cbn [bind] in Eb.
        * destruct ms as [| m ms']; [discriminate |].
          destruct m; cbn [getitem] in Eb; try (injection Eb as <-; now left).
          destruct (assoc "data" kvs); [discriminate |].
          injection Eb as <-. now right.
        * injection Eb as <-. now apply filter_type_raises in E3.
      + injection Eb as <-.
        destruct streams; cbn [iterate] in E2; try discriminate;
          injection E2 as <-; now left.
    - injection Eb as <-.
      destruct data; cbn [getitem] in E1; try (injection E1 as <-; now left).
      destruct (assoc "streams" kvs); [discriminate |].
      injection E1 as <-. now right. }
  destruct He as [-> | ->]; [discriminate |]. now intros [= <-].
Qed.

(** C8. [get_stream] lets a [KeyError] reach its caller: on a record
    that has no "streams" key, on a stream entry that has no "type"
    key, and on a matching entry that has no "data" key.  A record
    whose "streams" is null, or which is not a dict, gives None. *)
Theorem get_stream_KeyError_escapes :
  get_stream (JObj [("id", JInt 1); ("name", JStr "Morning ride")]) "time"
    = Raise KeyError /\
  get_stream (JObj [("streams", JArr [JObj [("data", JArr [JInt 0])]])]) "time"
    = Raise KeyError /\
  get_stream (JObj [("streams", JArr [JObj [("type", JStr "time")]])]) "time"
    = Raise KeyError /\
  get_stream (JObj [("streams", JNull)]) "time" = Ok JNull /\
  get_stream (JArr []) "time" = Ok JNull.
Proof. repeat split; reflexivity. Qed.

(** ** Duplicates *)

(** C5. [drop_duplicates] goes by heart-rate value, not by elapsed
    time.  The sample at second 1 below has a time of its own and is
    dropped all the same, because its heart rate repeats that of
    second 0 (second 1 is then filled in as 95, not the recorded 90);
    and two samples at second 0 with different heart rates are both
    kept, upon which reindexing raises. *)
Theorem drop_duplicates_goes_by_value :
  drop_duplicates [(0, hr 90); (1, hr 90); (2, hr 100); (3, hr 110)]
    = [(0, hr 90); (2, hr 100); (3, hr 110)] /\
  (exists s v, per_second_series [0; 1; 2; 3] [hr 90; hr 90; hr 100; hr 110]
                 = Ok s /\ lookup 1 s = Some (Num v) /\ (v == 95)%Q) /\
  drop_duplicates [(0, hr 90); (0, hr 95); (1, hr 100)]
    = [(0, hr 90); (0, hr 95); (1, hr 100)] /\
  per_second_series [0; 0; 1] [hr 90; hr 95; hr 100] = Raise ValueError.
Proof.
  split; [reflexivity |]. split.
  - eexists. eexists. split; [vm_compute; reflexivity |].
    split; [reflexivity | reflexivity].
  - split; reflexivity.
Qed.

(** ** Gap filling *)

(** C4. For the time stream [0,2,4] with heart rates [100,120,140]
    the script's series over the domain [0,4) holds 110 at second 1
    and 120 at second 3, where interpolation between the samples of
    seconds 2 and 4 gives 130: reindexing has dropped the sample of
    second 4 before the interpolation runs, and a cell with no number
    after it takes the last number before it.  Likewise a heart rate
    going from 155 at second 0 to 159 at second 4 comes out as 155
    on all four seconds. *)
Theorem gap_filling_scenario :
  (exists s v1 v3,
      per_second_series [0; 2; 4] [hr 100; hr 120; hr 140] = Ok s /\
      index s = [0; 1; 2; 3] /\
      lookup 1 s = Some (Num v1) /\ (v1 == 110)%Q /\
      lookup 3 s = Some (Num v3) /\ (v3 == 120)%Q /\ ~ (v3 == 130)%Q) /\
  per_second_series [0; 4] [hr 155; hr 159]
  = Ok [(0, hr 155); (1, hr 155); (2, hr 155); (3, hr 155)].
Proof.
  split; [| reflexivity].
  do 3 eexists. split; [vm_compute; reflexivity |].
  repeat split. vm_compute. discriminate.
Qed.

(** ** Cells at the two ends of a series

    NaN cells before the first number stay NaN; NaN cells after the
    last number all take that number. *)

Lemma interpolate_values_leading (k : nat) (l : list value) :
  interpolate_values (repeat NaN k ++ l) = repeat NaN k ++ interpolate_values l.
Proof.
  induction k as [| k IH]; [reflexivity |].
  cbn [repeat app interpolate_values]. now rewrite IH.
Qed.

Lemma next_valid_trailing (k : nat) : next_valid (repeat NaN k) = None.
Proof.
  induction k as [| k IH]; [reflexivity |].
  cbn [repeat next_valid]. now rewrite IH.
Qed.

Lemma interpolate_after_trailing (a : Q) (k j : nat) :
  interpolate_after a j (repeat NaN k) = repeat (Num a) k.
Proof.
  revert j. induction k as [| k IH]; intro j; [reflexivity |].
  cbn [repeat interpolate_after].
  now rewrite next_valid_trailing, IH.
Qed.

Lemma next_valid_app (l t : list value) (b : Q) :
  next_valid (l ++ Num b :: t) = next_valid (l ++ [Num b]).
Proof.
  induction l as [| x l IH]; [reflexivity |].
  destruct x; cbn [app next_valid]; [reflexivity |].
  now rewrite IH.
Qed.

Lemma interpolate_after_app (a b : Q) (j : nat) (l t : list value) :
  interpolate_after a j (l ++ Num b :: t)
  = interpolate_after a j (l ++ [Num b]) ++ interpolate_after b 1 t.
Proof.
  revert a j. induction l as [| x l IH]; intros a j; [reflexivity |].
  destruct x as [v |]; cbn [app interpolate_after].
  - now rewrite IH.
  - now rewrite next_valid_app, IH.
Qed.

Lemma interpolate_values_trailing (l : list value) (a : Q) (k : nat) :
  interpolate_values (l ++ Num a :: repeat NaN k)
  = interpolate_values (l ++ [Num a]) ++ repeat (Num a) k.
Proof.
  induction l as [| x l IH].
  - cbn [app interpolate_values interpolate_after].
    now rewrite interpolate_after_trailing.
  - destruct x as [v |]; cbn [app interpolate_values].
    + now rewrite interpolate_after_app, interpolate_after_trailing.
    + now rewrite IH.
Qed.

(** *** Where the seconds of the series lie *)

Lemma interpolate_after_length (a : Q) (j : nat) (l : list value) :
  List.length (interpolate_after a j l) = List.length l.
Proof.
  revert a j. induction l as [| x l IH]; intros a j; [reflexivity |].
  destruct x; cbn [interpolate_after List.length]; now rewrite IH.
Qed.

Lemma interpolate_values_length (l : list value) :
  List.length (interpolate_values l) = List.length l.
Proof.
  induction l as [| x l IH]; [reflexivity |].
  destruct x; cbn [interpolate_values List.length].
  - now rewrite interpolate_after_length.
  - now rewrite IH.
Qed.

Lemma index_combine {A : Type} (a : list Z) (b : list A) :
  List.length a = List.length b -> index (combine a b) = a.
Proof.
  revert b. induction a as [| x a IH]; intros [| y b] H;
    try reflexivity; try discriminate.
  unfold index in *. cbn [combine map fst]. f_equal.
  apply IH. now injection H.
Qed.

Lemma index_interpolate (s : series value) : index (interpolate s) = index s.
Proof.
  unfold interpolate. apply index_combine.
  rewrite interpolate_values_length. unfold index, values.
  now rewrite !length_map.
Qed.

Lemma range_In (n t : Z) : In t (range n) <-> 0 <= t < n.
Proof.
  unfold range. rewrite in_map_iff. split.
  - intros (i & <- & Hi). apply in_seq in Hi. lia.
  - intro H. exists (Z.to_nat t). split; [lia |]. apply in_seq. lia.
Qed.

Lemma fold_max_In (l : list Z) (x : Z) : In (fold_left Z.max l x) (x :: l).
Proof.
  revert x. induction l as [| a l IH]; intro x; [now left |].
  cbn [fold_left]. destruct (IH (Z.max x a)) as [H | H].
  - rewrite <- H. destruct (Z.max_dec x a) as [-> | ->].
    + now left.
    + right. now left.
  - right. now right.
Qed.

Lemma py_max_In (l : list Z) (m : Z) : py_max l = Ok m -> In m l.
Proof.
  destruct l as [| x l]; [discriminate |].
  intros [= <-]. apply fold_max_In.
Qed.

Lemma drop_duplicates_index (seen : list value) (s : series value) (t : Z) :
  In t (index (drop_duplicates_from seen s)) -> In t (index s).
Proof.
  revert seen. induction s as [| [t' v] rest IH]; intro seen; [intros [] |].
  cbn [drop_duplicates_from].
  destruct (existsb (veqb v) seen); unfold index in *; cbn [map fst In].
  - intro H. right. now apply (IH seen).
  - intros [H | H]; [now left | right; now apply (IH (v :: seen))].
Qed.

Lemma lookup_not_In {A : Type} (t : Z) (s : series A) :
  ~ In t (index s) -> lookup t s = None.
Proof.
  induction s as [| [t' v] rest IH]; [reflexivity |].
  unfold index in *. cbn [map fst In lookup]. intro H.
  destruct (Z.eqb_spec t t') as [-> | _]; [exfalso; apply H; now left |].
  apply IH. intro Hin. apply H. now right.
Qed.

Lemma lookup_In_values {A : Type} (t : Z) (s : series A) (v : A) :
  lookup t s = Some v -> In v (values s).
Proof.
  induction s as [| [t' v'] rest IH]; [discriminate |].
  unfold values in *. cbn [lookup map snd In].
  destruct (t =? t'); [intros [= <-]; now left | intro H; right; now apply IH].
Qed.

Lemma lookup_leading (A B : list Z) (X : list value) (t : Z) :
  In t A ->
  lookup t (combine (A ++ B) (repeat NaN (List.length A) ++ X)) = Some NaN.
Proof.
  induction A as [| a A IH]; [intros [] |].
  intro Hin. cbn [app List.length repeat combine lookup].
  destruct (Z.eqb_spec t a) as [_ | Hne]; [reflexivity |].
  destruct Hin as [-> | Hin]; [contradiction | now apply IH].
Qed.

Lemma map_all_NaN (g : Z -> value) (l : list Z) :
  (forall u, In u l -> g u = NaN) -> map g l = repeat NaN (List.length l).
Proof.
  induction l as [| a l IH]; [reflexivity |].
  intro H. cbn [map List.length repeat]. f_equal.
  - apply H. now left.
  - apply IH. intros u Hu. apply H. now right.
Qed.

(** What [per_second_series] returns: labels [range(max(time_stream))],
    cells interpolated from those the reindexing found. *)
Lemma per_second_series_shape (time_stream : list Z) (hr_stream : list value)
    (s : series value) :
  per_second_series time_stream hr_stream = Ok s ->
  exists stop,
    py_max time_stream = Ok stop /\
    s = interpolate
          (map (fun t => (t, match lookup t (drop_duplicates
                                               (combine time_stream hr_stream))
                             with
                             | Some v => v
                             | None => NaN
                             end)) (range stop)).
Proof.
  unfold per_second_series, Series, reindex. intro H.
  destruct (Nat.eqb _ _); [| discriminate]. cbn [bind] in H.
  destruct (py_max time_stream) as [stop |]; [| discriminate].
  cbn [bind] in H. destruct (is_unique _); [| discriminate].
  cbn [bind] in H. injection H as <-. now exists stop.
Qed.

Lemma apply_lookup {A B : Type} (f : A -> result B) (s : series A)
    (zs : series B) (t : Z) (v : A) :
  apply f s = Ok zs ->
  lookup t s = Some v ->
  exists z, f v = Ok z /\ lookup t zs = Some z.
Proof.
  revert zs. induction s as [| [t' v'] rest IH]; intros zs H Hl;
    [discriminate |].
  cbn [apply] in H.
  destruct (f v') as [z' |] eqn:Ez; [| discriminate].
  destruct (apply f rest) as [zs' |]; [| discriminate].
  cbn [bind] in H. injection H as <-. cbn [lookup] in *.
  destruct (t =? t').
  - injection Hl as <-. now exists z'.
  - now apply IH.
Qed.

Lemma lookup_keyed (f : Z -> Q) (l : list Z) (z : Z) :
  In z l -> lookup z (map (fun k => (k, f k)) l) = Some (f z).
Proof.
  induction l as [| a l IH]; [intros [] |].
  intro Hin. cbn [map lookup].
  destruct (Z.eqb_spec z a) as [-> | Hne]; [reflexivity |].
  destruct Hin as [-> | Hin]; [contradiction | now apply IH].
Qed.

Lemma count_In (z : Z) (zs : list Z) : In z zs -> (0 < count z zs)%nat.
Proof.
  intro H. unfold count.
  assert (Hf : In z (filter (Z.eqb z) zs))
    by (apply filter_In; split; [exact H | apply Z.eqb_refl]).
  destruct (filter (Z.eqb z) zs); [destruct Hf | cbn; lia].
Qed.

(** The claim of C6 fails.  Every sample below is at 50 percent of
    the maximum or above, so no recorded heart rate is in zone 0; yet
    zone 0 gets minutes: the two seconds before the first sample. *)
Lemma leading_gap_seconds_are_counted :
  ~ (forall agg, zone_minutes [2; 3; 4] [hr 100; hr 110; hr 120] 200 = Ok agg ->
                 lookup 0 agg = None).
Proof.
  intro H.
  specialize (H [(0, (2 # 60)%Q); (1, (2 # 60)%Q)] eq_refl). discriminate.
Qed.

(** C6, amended. In the series of an activity every second comes
    before some known sample, so no second lies after the last one.
    A second that comes before every known sample is not given an
    interpolated value: its cell stays NaN.  It is not left out of the
    classification: with a nonzero maximum heart rate a second whose
    cell is NaN is classified as zone 0 and counted in the minutes of
    zone 0. *)
Theorem leading_gap_is_zone_0 (time_stream : list Z) (hr_stream : list value)
    (s : series value)
    (Hs : per_second_series time_stream hr_stream = Ok s) :
  (forall t, In t (index s) ->
             exists t', In t' time_stream /\ 0 <= t < t') /\
  (forall t, In t (index s) ->
             (forall t', In t' time_stream -> t < t') ->
             lookup t s = Some NaN) /\
  (forall (hr_max : Z) (zs : series Z) (t : Z),
      hr_max <> 0 ->
      apply (fun x => get_zone x hr_max) s = Ok zs ->
      lookup t s = Some NaN ->
      lookup t zs = Some 0 /\
      (0 < count 0 (values zs))%nat /\
      lookup 0 (aggregate zs)
      = Some (inject_Z (Z.of_nat (count 0 (values zs))) / 60)%Q).
Proof.
  destruct (per_second_series_shape _ _ _ Hs) as (stop & Hstop & ->).
  set (dd := drop_duplicates (combine time_stream hr_stream)).
  set (g := fun t => match lookup t dd with Some v => v | None => NaN end).
  match goal with
  | |- context [interpolate ?r] =>
      change r with (map (fun t => (t, g t)) (range stop))
  end.
  assert (Hidx : index (interpolate (map (fun t => (t, g t)) (range stop)))
                 = range stop).
  { rewrite index_interpolate. unfold index. rewrite map_map. cbn [fst].
    apply map_id. }
  split; [| split].
  - intros t Ht. rewrite Hidx in Ht. apply range_In in Ht.
    exists stop. split; [now apply py_max_In | exact Ht].
  - intros t Ht Hbefore. rewrite Hidx in Ht. apply range_In in Ht.
    assert (Hg : forall u, u <= t -> g u = NaN).
    { intros u Hu. unfold g. rewrite lookup_not_In; [reflexivity |].
      intro Hin. apply drop_duplicates_index in Hin.
      unfold index in Hin. apply in_map_iff in Hin.
      destruct Hin as ([u' v] & Hfst & Hin). cbn [fst] in Hfst. subst u'.
      apply in_combine_l in Hin. specialize (Hbefore u Hin). lia. }
    unfold interpolate, index, values. rewrite !map_map. cbn [fst snd].
    rewrite map_id. unfold range.
    replace (Z.to_nat stop)
      with (S (Z.to_nat t) + (Z.to_nat stop - S (Z.to_nat t)))%nat by lia.
    rewrite seq_app, !map_app.
    set (A := map Z.of_nat (seq 0 (S (Z.to_nat t)))).
    assert (HA : map g A = repeat NaN (List.length A)).
    { apply map_all_NaN. intros u Hu. apply Hg.
      unfold A in Hu. apply in_map_iff in Hu.
      destruct Hu as (i & <- & Hi). apply in_seq in Hi. lia. }
    change (fun x : Z => g x) with g.
    rewrite HA, interpolate_values_leading.
    apply lookup_leading. unfold A. apply in_map_iff.
    exists (Z.to_nat t). split; [lia |]. apply in_seq. lia.
  - intros hr_max zs t Hm Hzs Ht.
    destruct (apply_lookup _ _ _ _ _ Hzs Ht) as (z & Hz & Hlz).
    cbn beta in Hz. rewrite get_zone_NaN in Hz by exact Hm.
    injection Hz as <-.
    assert (Hin : In 0 (values zs)) by exact (lookup_In_values _ _ _ Hlz).
    split; [exact Hlz |]. split; [now apply count_In |].
    unfold aggregate.
    apply (lookup_keyed
             (fun z => (inject_Z (Z.of_nat (count z (values zs))) / 60)%Q)).
    now apply nodup_In.
Qed.

Lemma leading_gap_is_zone_0_witness :
  exists s,
    per_second_series [2; 3; 4] [hr 100; hr 110; hr 120] = Ok s /\
    lookup 1 s = Some NaN /\
    forall zs, apply (fun x => get_zone x 200) s = Ok zs ->
               lookup 1 zs = Some 0.
Proof.
  assert (Hs : per_second_series [2; 3; 4] [hr 100; hr 110; hr 120]
               = Ok [(0, NaN); (1, NaN); (2, hr 100); (3, hr 110)])
    by reflexivity.
  eexists. split; [exact Hs |].
  destruct (leading_gap_is_zone_0 _ _ _ Hs) as (_ & Hlead & Hzone).
  assert (H1 : lookup 1 [(0, NaN); (1, NaN); (2, hr 100); (3, hr 110)]
               = Some NaN).
  { apply Hlead.
    - cbn. tauto.
    - intros t' [<- | [<- | [<- | []]]]; lia. }
  split; [exact H1 |].
  intros zs Hzs.
  assert (Hm : 200 <> 0) by lia.
  exact (proj1 (Hzone 200 zs 1 Hm Hzs H1)).
Defined.

(** ** The frame of calendar days *)

Lemma date_range_In (s e d : Z) : In d (date_range s e) <-> s <= d <= e.
Proof.
  unfold date_range. rewrite in_map_iff. split.
  - intros (i & <- & Hi). apply in_seq in Hi. lia.
  - intros Hd. exists (Z.to_nat (d - s)). split; [lia |].
    apply in_seq. lia.
Qed.

Lemma days_from_sorted (s : Z) (n a : nat) :
  StronglySorted Z.lt (map (fun i => s + Z.of_nat i) (seq a n)).
Proof.
  revert a. induction n as [| n IH]; intro a; cbn [seq map].
  - constructor.
  - constructor; [apply IH |].
    apply Forall_forall. intros d Hd.
    apply in_map_iff in Hd. destruct Hd as (i & <- & Hi).
    apply in_seq in Hi. lia.
Qed.

Lemma date_range_sorted (s e : Z) : StronglySorted Z.lt (date_range s e).
Proof. apply days_from_sorted. Qed.

Lemma sorted_NoDup (l : list Z) : StronglySorted Z.lt l -> NoDup l.
Proof.
  induction 1 as [| d l Hs IH Hall]; constructor; [| exact IH].
  intro Hin. rewrite Forall_forall in Hall.
  specialize (Hall d Hin). lia.
Qed.

Lemma date_range_cons (s e : Z) :
  s <= e -> date_range s e = s :: date_range (s + 1) e.
Proof.
  intro H. unfold date_range.
  replace (Z.to_nat (e - s + 1)) with (S (Z.to_nat (e - (s + 1) + 1))) by lia.
  cbn [seq map]. f_equal; [lia |].
  rewrite <- seq_shift, map_map.
  apply map_ext. intro i. lia.
Qed.

Lemma index_frame (dates : list Z) :
  index (map (fun d => (d, empty_row)) dates) = dates.
Proof.
  unfold index. rewrite map_map. cbn [fst]. apply map_id.
Qed.

Lemma lookup_frame (dates : list Z) (d : Z) :
  In d dates -> lookup d (map (fun d => (d, empty_row)) dates) = Some empty_row.
Proof.
  induction dates as [| d' dates IH]; [intros [] |].
  intro Hin. cbn [map lookup].
  destruct (Z.eqb_spec d d') as [_ | Hne]; [reflexivity |].
  destruct Hin as [-> | Hin]; [contradiction | now apply IH].
Qed.

(** Writing through [loc] touches one row and no label. *)
Lemma update_loc_index (label : Z) (f : row -> result row)
    (df df' : data_frame) :
  update_loc label f df = Ok df' -> index df' = index df.
Proof.
  revert df'. induction df as [| [d r] rest IH]; intros df' H;
    cbn [update_loc] in H; [discriminate |].
  destruct (label =? d).
  - destruct (f r); [| discriminate]. now injection H as <-.
  - destruct (update_loc label f rest) as [rest' |]; [| discriminate].
    injection H as <-. unfold index in *. cbn [map fst].
    f_equal. now apply IH.
Qed.

Lemma update_loc_other (label d : Z) (f : row -> result row)
    (df df' : data_frame) :
  update_loc label f df = Ok df' -> d <> label -> lookup d df' = lookup d df.
Proof.
  intros H Hne. revert df' H.
  induction df as [| [d' r] rest IH]; intros df' H;
    cbn [update_loc] in H; [discriminate |].
  destruct (Z.eqb_spec label d') as [-> | Hl].
  - destruct (f r); [| discriminate]. injection H as <-.
    cbn [lookup]. destruct (Z.eqb_spec d d'); [contradiction | reflexivity].
  - destruct (update_loc label f rest) as [rest' |]; [| discriminate].
    injection H as <-. cbn [lookup].
    destruct (d =? d'); [reflexivity | now apply IH].
Qed.

Section Merge.

Variable parse_date : string -> result Z.

Lemma process_activity_frame (df df' : data_frame) (a : json) (hr_max : Z) :
  process_activity parse_date df a hr_max = Ok df' ->
  index df' = index df /\
  (forall d, date_of parse_date a <> Ok d -> lookup d df' = lookup d df).
Proof.
  unfold process_activity. intro H.
  destruct (get_stream a "time") as [ts |]; [| discriminate].
  destruct (get_stream a "heartrate") as [hs |]; [| discriminate].
  cbn [bind] in H.
  destruct (is_None ts || is_None hs).
  - injection H as <-. now split.
  - destruct (decode_time ts) as [times |]; [| discriminate].
    destruct (decode_hr hs) as [hrs |]; [| discriminate].
    cbn [bind] in H.
    destruct (zone_minutes times hrs hr_max) as [agg |]; [| discriminate].
    destruct (date_of parse_date a) as [ad |]; [| discriminate].
    cbn [bind] in H. split.
    + now apply update_loc_index in H.
    + intros d Hd. eapply update_loc_other; [exact H | congruence].
Qed.

Lemma merge_frame (data : list json) (hr_max : Z) (df df' : data_frame) :
  foldM (fun df a => process_activity parse_date df a hr_max) df data = Ok df' ->
  index df' = index df /\
  (forall d, (forall a, In a data -> date_of parse_date a <> Ok d) ->
             lookup d df' = lookup d df).
Proof.
  revert df. induction data as [| a data IH]; intros df H; cbn [foldM] in H.
  - injection H as <-. now split.
  - destruct (process_activity parse_date df a hr_max) as [df1 |] eqn:E1;
      [| discriminate].
    cbn [bind] in H. destruct (IH _ H) as [Hi Hl].
    destruct (process_activity_frame _ _ _ _ E1) as [Hi1 Hl1].
    split; [congruence |].
    intros d Hd. rewrite Hl, Hl1; [reflexivity | |].
    + apply Hd. now left.
    + intros a' Ha'. apply Hd. now right.
Qed.

End Merge.

(** The claim of C7 fails on the first day of the table: with the
    activity of January 10 listed before that of January 5, the table
    starts on January 10 and has no row for January 5. *)
Lemma frame_starts_at_first_listed :
  let data := [activity 2 "Ride" "2023-01-10T08:00:00Z" [0; 1] [120; 121];
               activity 1 "Run" "2023-01-05T08:00:00Z" [0; 1] [130; 131]] in
  date_of calendar (nth 1 data JNull) = Ok 738525 /\
  exists df, make_frame calendar data 738532 = Ok df /\
             index df = [738530; 738531; 738532] /\
             ~ In 738525 (index df).
Proof.
  split; [reflexivity |].
  eexists. split; [vm_compute; reflexivity |]. split; [reflexivity |].
  cbn [index map fst In]. intros [H | [H | [H | []]]]; discriminate.
Qed.

(** C7, amended. Before any activity is processed the table is built
    with one row per calendar day from the date of the first activity
    in the list to today inclusive: no gap, no date twice, dates in
    increasing order, every cell unset.  After the activities are
    merged the dates are the same, and the row of a day on which no
    activity is dated is still unset, so filling gives it zeros
    throughout and a trimp of zero. *)
Theorem daily_table_skeleton (parse_date : string -> result Z)
    (first : json) (rest : list json) (today d0 : Z)
    (Hfirst : date_of parse_date first = Ok d0) :
  let dates := date_range d0 today in
  make_frame parse_date (first :: rest) today
    = Ok (map (fun d => (d, empty_row)) dates) /\
  (forall d, In d dates <-> d0 <= d <= today) /\
  NoDup dates /\
  StronglySorted Z.lt dates /\
  (forall hr_max df,
      merge_activities parse_date (first :: rest) hr_max today = Ok df ->
      index df = dates /\
      forall d, In d dates ->
                (forall a, In a (first :: rest) ->
                           date_of parse_date a <> Ok d) ->
                lookup d df = Some empty_row) /\
  fillna_row empty_row = zero_day /\
  (trimp_of zero_day == 0)%Q.
Proof.
  intro dates.
  assert (Hmake : make_frame parse_date (first :: rest) today
                  = Ok (map (fun d => (d, empty_row)) dates)).
  { unfold make_frame. now rewrite Hfirst. }
  split; [exact Hmake |].
  split; [intro d; apply date_range_In |].
  split; [apply sorted_NoDup, date_range_sorted |].
  split; [apply date_range_sorted |].
  split; [| split; reflexivity].
  intros hr_max df Hdf. unfold merge_activities in Hdf.
  rewrite Hmake in Hdf. cbn [bind] in Hdf.
  destruct (merge_frame _ _ _ _ _ Hdf) as [Hi Hl].
  split; [now rewrite Hi, index_frame |].
  intros d Hd Hno. rewrite (Hl d Hno). now apply lookup_frame.
Qed.

Lemma daily_table_skeleton_witness :
  let first := activity 2 "Ride" "2023-01-10T08:00:00Z" [0; 1] [120; 121] in
  date_of calendar first = Ok 738530 /\
  make_frame calendar [first] 738532
  = Ok [(738530, empty_row); (738531, empty_row); (738532, empty_row)].
Proof.
  intro first.
  assert (H : date_of calendar first = Ok 738530) by reflexivity.
  split; [exact H |].
  destruct (daily_table_skeleton calendar first [] 738532 738530 H)
    as [Hmake _].
  exact Hmake.
Defined.

(** ** One activity, end to end *)

(** An activity with both streams, dated on the first day of the
    frame, writes that first row. *)
Lemma process_activity_head (parse_date : string -> result Z) (a : json)
    (hr_max d : Z) (r : row) (rest : data_frame) (ts hs i n : json)
    (times : list Z) (hrs : list value) (agg : series Q) :
  get_stream a "time" = Ok ts ->
  get_stream a "heartrate" = Ok hs ->
  is_None ts || is_None hs = false ->
  decode_time ts = Ok times ->
  decode_hr hs = Ok hrs ->
  zone_minutes times hrs hr_max = Ok agg ->
  date_of parse_date a = Ok d ->
  getitem a "id" = Ok i ->
  getitem a "name" = Ok n ->
  process_activity parse_date ((d, r) :: rest) a hr_max
  = Ok ((d, fold_left (add_zone agg) (range 6) (set_id_name i n r)) :: rest).
Proof.
  intros Hts Hhs Hnone Htimes Hhrs Hagg Hd Hi Hn.
  unfold process_activity.
  rewrite Hts, Hhs. cbn [bind]. rewrite Hnone, Htimes, Hhrs. cbn [bind].
  rewrite Hagg, Hd. cbn [bind update_loc].
  rewrite Z.eqb_refl, Hi, Hn. reflexivity.
Qed.

Lemma scenario_merge (hr_max today : Z) (agg : series Q) :
  738521 <= today ->
  zone_minutes [0; 1; 2; 3; 4; 5] [hr 90; hr 90; hr 90; hr 90; hr 90; hr 90]
               hr_max = Ok agg ->
  merge_activities calendar [six_seconds_at_90] hr_max today
  = Ok ((738521, fold_left (add_zone agg) (range 6)
                           (set_id_name (JInt 1) (JStr "Run") empty_row))
          :: map (fun d => (d, empty_row)) (date_range 738522 today)).
Proof.
  intros Htoday Hagg. unfold merge_activities, make_frame.
  replace (date_of calendar six_seconds_at_90) with (@Ok Z 738521)
    by reflexivity.
  cbn [bind]. rewrite date_range_cons by exact Htoday.
  cbn [map foldM Z.add Pos.add Pos.succ].
  erewrite process_activity_head; try reflexivity. exact Hagg.
Qed.

Lemma Q2R_5_60 : Q2R (5 # 60) = (5 / 60)%R.
Proof. unfold Q2R. cbn [Qnum Qden]. reflexivity. Qed.

(** The script does not reach the first figure of the scenario: the
    day gets 5/60 of a minute in zone 1, not the 0.1 of six seconds. *)
Lemma scenario_tz1_is_not_a_tenth :
  ~ (exists t p, main calendar [six_seconds_at_90] 180 738521 = Ok t /\
                 lookup 738521 t = Some p /\ (tz1 (base p) == 0.1)%Q).
Proof.
  intros (t & p & Ht & Hp & Htz).
  unfold main in Ht.
  rewrite (scenario_merge 180 738521 [(1, (5 # 60)%Q)]) in Ht;
    [| lia | reflexivity].
  cbn [bind] in Ht. injection Ht as <-.
  cbn [date_range Z.sub Z.add Z.opp Z.pos_sub Pos.add Pos.succ Z.to_nat
       Pos.to_nat Pos.iter_op Pos.pred_double Z.succ_double Z.pred_double
       Z.double seq map] in Hp.
  unfold finish, calculate_performance, trimp_column, fillna in Hp.
  cbn [map fst snd calculate_performance_from lookup Z.eqb Pos.eqb] in Hp.
  injection Hp as <-. cbn [base] in Htz.
  vm_compute in Htz. discriminate.
Qed.

(** C2. One activity dated 2023-01-01, maximum heart rate 180, time
    stream [0,1,2,3,4,5], heart rate 90 throughout: six samples at 50
    percent, a tenth of a minute in zone 1.  The script's series
    covers the five seconds 0 to 4 only, reindexing over
    [range(max(time_stream))] having dropped the sample of second 5,
    so that day (the first row of the table, whatever today is) gets
    tz1 = 5/60 of a minute and trimp = 5/60, and the recurrence gives
    fitness = fatigue = 5/60 and performance
    = 5/60 * 0.0076 - 5/60 * 0.0020, where six seconds give 0.1 and
    0.00056. *)
Theorem end_to_end_scenario (today : Z) (Htoday : 738521 <= today) :
  exists t p,
    main calendar [six_seconds_at_90] 180 today = Ok t /\
    hd_error t = Some (738521, p) /\
    lookup 738521 t = Some p /\
    (tz1 (base p) == 5 # 60)%Q /\
    (trimp (base p) == 5 # 60)%Q /\
    fitness p = (5 / 60)%R /\
    fatigue p = (5 / 60)%R /\
    performance p = (5 / 60 * 0.0076 - 5 / 60 * 0.0020)%R.
Proof.
  assert (Hmerge := scenario_merge 180 today [(1, (5 # 60)%Q)] Htoday eq_refl).
  fold scenario_row in Hmerge.
  assert (Htrimp : (trimp (set_trimp (fillna_row scenario_row)) == 5 # 60)%Q)
    by (vm_compute; reflexivity).
  assert (HtrimpR : Q2R (trimp (set_trimp (fillna_row scenario_row)))
                    = (5 / 60)%R)
    by (rewrite (Qeq_eqR _ _ Htrimp); apply Q2R_5_60).
  eexists. eexists. split.
  - unfold main. rewrite Hmerge. cbn [bind]. reflexivity.
  - unfold finish, calculate_performance, trimp_column, fillna.
    cbn [map fst snd calculate_performance_from hd_error lookup].
    rewrite Z.eqb_refl.
    split; [reflexivity |]. split; [reflexivity |].
    cbn [base fitness fatigue performance].
    split; [vm_compute; reflexivity |]. split; [exact Htrimp |].
    rewrite HtrimpR. unfold K1, K2.
    repeat split; rlra.
Qed.

Lemma end_to_end_scenario_witness :
  738521 <= 738521 /\
  exists t p, main calendar [six_seconds_at_90] 180 738521 = Ok t /\
              t = [(738521, p)] /\ performance p = (7 / 15000)%R.
Proof.
  assert (H : 738521 <= 738521) by lia.
  split; [exact H |].
  destruct (end_to_end_scenario 738521 H)
    as (t & p & Hmain & Hhd & _ & _ & _ & _ & _ & Hperf).
  exists t, p. split; [exact Hmain |]. split.
  - unfold main in Hmain.
    rewrite (scenario_merge 180 738521 [(1, (5 # 60)%Q)] H eq_refl) in Hmain.
    cbn [bind] in Hmain. injection Hmain as <-.
    injection Hhd as <-. reflexivity.
  - rewrite Hperf. rlra.
Defined.

(** ** The maximum heart rate *)

Lemma get_zone_nonpositive (hr_max : Z) (v : Q) :
  hr_max <= 0 -> (0 <= v)%Q ->
  get_zone (Num v) hr_max
  = if hr_max =? 0 then Raise ZeroDivisionError else Ok 0.
Proof.
  intros Hmax Hv. unfold get_zone, percentage_of.
  destruct (Z.eqb_spec hr_max 0) as [E | E]; [reflexivity |].
  cbn [bind vge vlt].
  set (p := (v * 100 / inject_Z hr_max)%Q).
  assert (Hp : (p <= 0)%Q).
  { unfold p, Qdiv.
    assert (Hinv : (/ inject_Z hr_max <= 0)%Q).
    { destruct hr_max as [| q | q]; [congruence | lia |].
      unfold Qinv, inject_Z, Qle. cbn. lia. }
    generalize dependent (/ inject_Z hr_max)%Q. intros q Hq. Lqa.nra. }
  assert (H : forall c : Q, (0 < c)%Q -> Qle_bool c p = false).
  { intros c Hc. apply Qle_bool_false. qlra. }
  rewrite !H by reflexivity. reflexivity.
Qed.





Section Maximum.

Variable parse_date : string -> result Z.



End Maximum.


Lemma get_zone_zero (x : value) : get_zone x 0 = Raise ZeroDivisionError.
Proof. reflexivity. Qed.





(** ** The recurrence *)

Lemma calculate_performance_from_index (f g : R) (rows : list (Z * day)) :
  index (calculate_performance_from f g rows) = index rows.
Proof.
  revert f g. induction rows as [| [d r] rest IH]; intros f g; [reflexivity |].
  cbn [calculate_performance_from]. unfold index in *.
  cbn [map fst]. f_equal. apply IH.
Qed.

Lemma calculate_performance_from_nth (rows : list (Z * day)) :
  forall (f g : R) (i : nat) (d : Z) (p : perf),
    nth_error (calculate_performance_from f g rows) i = Some (d, p) ->
    let t := calculate_performance_from f g rows in
    nth_error rows i = Some (d, base p) /\
    fitness p
    = (previous fitness f t i * exp (-1 / 60) + Q2R (trimp (base p)))%R /\
    fatigue p
    = (previous fatigue g t i * exp (-1 / 5) + Q2R (trimp (base p)))%R /\
    performance p = (fitness p * 0.0076 - fatigue p * 0.0020)%R.
Proof.
  induction rows as [| [d0 r0] rest IH]; intros f g i d p H t.
  - destruct i; discriminate.
  - subst t. cbn [calculate_performance_from] in *.
    destruct i as [| i].
    + cbn [nth_error] in *. injection H as <- <-.
      cbn [base fitness fatigue performance previous].
      repeat split.
    + cbn [nth_error] in H |- *.
      destruct (IH _ _ _ _ _ H) as (Hrow & Hfit & Hfat & Hperf).
      split; [exact Hrow |]. split; [| split; [| exact Hperf]].
      * rewrite Hfit. destruct i; reflexivity.
      * rewrite Hfat. destruct i; reflexivity.
Qed.

Lemma trimp_column_nth (df : data_frame) (i : nat) (d : Z) (r : day) :
  nth_error (trimp_column (fillna df)) i = Some (d, r) ->
  trimp r = trimp_of r.
Proof.
  intro H. apply nth_error_In in H.
  unfold trimp_column, fillna in H. rewrite map_map in H.
  apply in_map_iff in H. destruct H as ([d' r'] & Heq & _).
  injection Heq as _ <-. reflexivity.
Qed.

Lemma finish_index (df : data_frame) : index (finish df) = index df.
Proof.
  unfold finish, calculate_performance.
  rewrite calculate_performance_from_index.
  unfold trimp_column, fillna, index. rewrite !map_map. reflexivity.
Qed.

Lemma merge_activities_index (parse_date : string -> result Z)
    (data : list json) (hr_max today : Z) (df : data_frame) :
  merge_activities parse_date data hr_max today = Ok df ->
  exists start_date, index df = date_range start_date today.
Proof.
  unfold merge_activities, make_frame. intro H.
  destruct data as [| first rest]; [discriminate |].
  destruct (date_of parse_date first) as [d0 |]; [| discriminate].
  cbn [bind] in H. exists d0.
  destruct (merge_frame _ _ _ _ _ H) as [Hi _].
  now rewrite Hi, index_frame.
Qed.

(** C1. In the table the script ends with, the dates of the rows are
    strictly increasing, and every row obeys the recurrence: its trimp
    is tz1 + 2*tz2 + 3*tz3 + 4*tz4 + 5*tz5, its fitness is the
    fitness of the row before times e^(-1/60) plus its trimp, its
    fatigue is the fatigue of the row before times e^(-1/5) plus its
    trimp, the first row starting from 0 for both, and its performance
    is fitness * 0.0076 - fatigue * 0.0020. *)
Theorem main_recurrence (parse_date : string -> result Z) (data : list json)
    (hr_max today : Z) (t : list (Z * perf))
    (Hmain : main parse_date data hr_max today = Ok t) :
  StronglySorted Z.lt (index t) /\
  forall (i : nat) (d : Z) (p : perf),
    nth_error t i = Some (d, p) ->
    trimp (base p)
    = (tz1 (base p) + 2 * tz2 (base p) + 3 * tz3 (base p)
       + 4 * tz4 (base p) + 5 * tz5 (base p))%Q /\
    fitness p
    = (previous fitness 0 t i * exp (-1 / 60) + Q2R (trimp (base p)))%R /\
    fatigue p
    = (previous fatigue 0 t i * exp (-1 / 5) + Q2R (trimp (base p)))%R /\
    performance p = (fitness p * 0.0076 - fatigue p * 0.0020)%R.
Proof.
  unfold main in Hmain.
  destruct (merge_activities parse_date data hr_max today) as [df |] eqn:Hdf;
    [| discriminate].
  cbn [bind] in Hmain. injection Hmain as <-.
  split.
  - rewrite finish_index.
    destruct (merge_activities_index _ _ _ _ _ Hdf) as [d0 ->].
    apply date_range_sorted.
  - intros i d p Hnth. unfold finish, calculate_performance in *.
    destruct (calculate_performance_from_nth _ _ _ _ _ _ Hnth)
      as (Hrow & Hfit & Hfat & Hperf).
    split; [| now repeat split].
    apply (trimp_column_nth _ _ _ _ Hrow).
Qed.

Lemma main_recurrence_witness :
  exists t,
    main calendar [six_seconds_at_90] 180 738523 = Ok t /\
    StronglySorted Z.lt (index t) /\
    index t = [738521; 738522; 738523].
Proof.
  assert (Hmain :
    main calendar [six_seconds_at_90] 180 738523
    = Ok (finish ((738521, scenario_row)
                    :: map (fun d => (d, empty_row))
                           (date_range 738522 738523)))).
  { unfold main.
    rewrite (scenario_merge 180 738523 [(1, (5 # 60)%Q)]);
      [reflexivity | lia | reflexivity]. }
  eexists. split; [exact Hmain |].
  split.
  - exact (proj1 (main_recurrence _ _ _ _ _ Hmain)).
  - rewrite finish_index. reflexivity.
Defined.

(** * Further properties of the script *)

(** ** The stream extractor on well-formed records *)

Lemma filter_type_typed (stream : string) (l : list json) :
  (forall s, In s l -> exists ty, getitem s "type" = Ok ty) ->
  filter_type stream l = Ok (filter (has_type stream) l).
Proof.
  induction l as [| s t IH]; intro H; [reflexivity |].
  cbn [filter_type filter]. unfold has_type at 1.
  destruct (H s (or_introl eq_refl)) as [ty ->]. cbn [bind].
  rewrite IH by (intros s' Hs'; apply H; now right).
  reflexivity.
Qed.

Lemma filter_head_find {A : Type} (f : A -> bool) (l : list A) :
  find f l = hd_error (filter f l).
Proof.
  induction l as [| a l IH]; [reflexivity |].
  cbn [find filter]. destruct (f a); [reflexivity | exact IH].
Qed.

Lemma get_stream_body_typed (kvs : list (string * json)) (l : list json)
    (stream : string) :
  assoc "streams" kvs = Some (JArr l) ->
  (forall s, In s l -> exists ty, getitem s "type" = Ok ty) ->
  get_stream_body (JObj kvs) stream
  = match filter (has_type stream) l with
    | [] => Ok JNull
    | m :: _ => getitem m "data"
    end.
Proof.
  intros Hstreams Htyped. unfold get_stream_body. cbn [getitem].
  rewrite Hstreams. cbn [bind iterate].
  now rewrite (filter_type_typed stream l Htyped).
Qed.

Lemma typed_entry_data (m : json) (ty : json) :
  getitem m "type" = Ok ty -> getitem m "data" <> Raise TypeError.
Proof.
  destruct m; try discriminate. intros _.
  cbn [getitem]. destruct (assoc "data" kvs); discriminate.
Qed.

(** When the record is a dict whose "streams" is a list of entries
    that all carry a "type", [get_stream] settles on the first entry
    of the type asked for and returns its "data" (raising [KeyError]
    when that entry has none); later entries of the same type are
    never looked at.  With no entry of that type it returns None. *)
Theorem get_stream_first_match (kvs : list (string * json)) (l : list json)
    (stream : string)
    (Hstreams : assoc "streams" kvs = Some (JArr l))
    (Htyped : forall s, In s l -> exists ty, getitem s "type" = Ok ty) :
  get_stream (JObj kvs) stream
  = match find (has_type stream) l with
    | Some m => getitem m "data"
    | None => Ok JNull
    end.
Proof.
  unfold get_stream.
  rewrite (get_stream_body_typed kvs l stream Hstreams Htyped).
  rewrite filter_head_find.
  destruct (filter (has_type stream) l) as [| m ms] eqn:E; [reflexivity |].
  cbn [hd_error].
  assert (Hin : In m l).
  { assert (H : In m (filter (has_type stream) l)) by (rewrite E; now left).
    now apply filter_In in H. }
  destruct (Htyped m Hin) as [ty Hty].
  pose proof (typed_entry_data m ty Hty) as Hdata.
  destruct (getitem m "data") as [d | []]; try reflexivity.
  now contradiction Hdata.
Qed.

Lemma get_stream_first_match_witness :
  get_stream
    (JObj [("streams",
             JArr [JObj [("type", JStr "heartrate"); ("data", JArr [JInt 90])];
                   JObj [("type", JStr "time"); ("data", JArr [JInt 0])];
                   JObj [("type", JStr "time"); ("data", JArr [JInt 7])]])])
    "time"
  = Ok (JArr [JInt 0]).
Proof.
  refine (get_stream_first_match
            [("streams",
               JArr [JObj [("type", JStr "heartrate");
                           ("data", JArr [JInt 90])];
                     JObj [("type", JStr "time"); ("data", JArr [JInt 0])];
                     JObj [("type", JStr "time"); ("data", JArr [JInt 7])]])]
            [JObj [("type", JStr "heartrate"); ("data", JArr [JInt 90])];
             JObj [("type", JStr "time"); ("data", JArr [JInt 0])];
             JObj [("type", JStr "time"); ("data", JArr [JInt 7])]]
            "time" eq_refl _).
  intros s [<- | [<- | [<- | []]]]; eexists; reflexivity.
Defined.

(** ** Activities that are skipped *)

(** An activity whose stream entries all carry "type" and "data" but
    among which the time stream or the heart-rate stream is missing
    leaves the frame as it is.  Nothing else of the record is read:
    neither a missing or unparseable start date, nor a date outside
    the frame, nor a maximum heart rate of zero gets in the way. *)
Theorem activity_without_stream_is_skipped
    (parse_date : string -> result Z) (kvs : list (string * json))
    (l : list json) (df : data_frame) (hr_max : Z)
    (Hstreams : assoc "streams" kvs = Some (JArr l))
    (Hentries : forall s, In s l ->
                          exists ty d, getitem s "type" = Ok ty /\
                                       getitem s "data" = Ok d)
    (Hmissing : find (has_type "time") l = None \/
                find (has_type "heartrate") l = None) :
  process_activity parse_date df (JObj kvs) hr_max = Ok df.
Proof.
  assert (Htyped : forall s, In s l -> exists ty, getitem s "type" = Ok ty).
  { intros s Hs. destruct (Hentries s Hs) as (ty & _ & Hty & _). now exists ty. }
  assert (Hget : forall stream,
             exists v, get_stream (JObj kvs) stream = Ok v /\
                       (find (has_type stream) l = None -> v = JNull)).
  { intro stream. unfold get_stream.
    rewrite (get_stream_body_typed kvs l stream Hstreams Htyped).
    rewrite filter_head_find.
    destruct (filter (has_type stream) l) as [| m ms] eqn:E.
    - exists JNull. now split.
    - assert (Hin : In m l).
      { assert (H : In m (filter (has_type stream) l))
          by (rewrite E; now left).
        now apply filter_In in H. }
      destruct (Hentries m Hin) as (_ & d & _ & ->).
      exists d. split; [reflexivity | discriminate]. }
  unfold process_activity.
  destruct (Hget "time") as (ts & -> & Hts).
  destruct (Hget "heartrate") as (hs & -> & Hhs).
  cbn [bind].
  destruct Hmissing as [H | H].
  - rewrite (Hts H). reflexivity.
  - rewrite (Hhs H). cbn [is_None]. now rewrite orb_true_r.
Qed.

Lemma activity_without_stream_is_skipped_witness :
  process_activity calendar [(738521, empty_row)]
    (JObj [("streams",
             JArr [JObj [("type", JStr "time"); ("data", JArr [JInt 0])]])])
    0
  = Ok [(738521, empty_row)].
Proof.
  refine (activity_without_stream_is_skipped calendar
            [("streams",
               JArr [JObj [("type", JStr "time"); ("data", JArr [JInt 0])]])]
            [JObj [("type", JStr "time"); ("data", JArr [JInt 0])]]
            [(738521, empty_row)] 0 eq_refl _ _).
  - intros s [<- | []]. do 2 eexists. split; reflexivity.
  - right. reflexivity.
Defined.

(** ** The zone classifier, further *)

Lemma get_zone_range (x : value) (m z : Z) :
  get_zone x m = Ok z -> 0 <= z <= 5.
Proof.
  unfold get_zone. destruct (percentage_of x m) as [p |]; [| discriminate].
  cbn [bind].
  repeat match goal with
         | |- context [if ?b then _ else _] => destruct b
         end; intros [= <-]; lia.
Qed.

Lemma get_zone_cases (v : Q) (m : Z) :
  0 < m ->
  let p := (v * 100 / inject_Z m)%Q in
  ((p < 50)%Q /\ get_zone (Num v) m = Ok 0) \/
  ((50 <= p)%Q /\ (p < 60)%Q /\ get_zone (Num v) m = Ok 1) \/
  ((60 <= p)%Q /\ (p < 70)%Q /\ get_zone (Num v) m = Ok 2) \/
  ((70 <= p)%Q /\ (p < 80)%Q /\ get_zone (Num v) m = Ok 3) \/
  ((80 <= p)%Q /\ (p < 90)%Q /\ get_zone (Num v) m = Ok 4) \/
  ((90 <= p)%Q /\ get_zone (Num v) m = Ok 5).
Proof.
  intros Hm p. unfold get_zone, percentage_of.
  destruct (Z.eqb_spec m 0) as [E | _]; [lia |].
  cbn [bind vge vlt]. unfold Qlt_bool. fold p. clearbody p.
  destruct (Qle_bool 50 p) eqn:H50; destruct (Qle_bool 60 p) eqn:H60;
    destruct (Qle_bool 70 p) eqn:H70; destruct (Qle_bool 80 p) eqn:H80;
    destruct (Qle_bool 90 p) eqn:H90; cbn [andb negb]; bool_to_Q;
    try (exfalso; qlra).
  - do 5 right. now split.
  - do 4 right. left. now repeat split.
  - do 3 right. left. now repeat split.
  - do 2 right. left. now repeat split.
  - right. left. now repeat split.
  - left. now split.
Qed.

Lemma percentage_monotone (v1 v2 : Q) (m : Z) :
  0 < m -> (v1 <= v2)%Q ->
  (v1 * 100 / inject_Z m <= v2 * 100 / inject_Z m)%Q.
Proof.
  intros Hm Hv. unfold Qdiv.
  assert (Hinv : (0 < / inject_Z m)%Q).
  { apply Qinv_lt_0_compat. unfold Qlt, inject_Z. cbn. lia. }
  generalize dependent (/ inject_Z m)%Q. intros q Hq. Lqa.nra.
Qed.

(** With a positive maximum heart rate the zone never goes down when
    the heart rate goes up. *)
Theorem get_zone_monotone (v1 v2 : Q) (m z1 z2 : Z)
    (Hm : 0 < m) (Hv : (v1 <= v2)%Q)
    (H1 : get_zone (Num v1) m = Ok z1)
    (H2 : get_zone (Num v2) m = Ok z2) :
  z1 <= z2.
Proof.
  pose proof (percentage_monotone v1 v2 m Hm Hv) as Hp.
  destruct (get_zone_cases v1 m Hm) as [C1 | [C1 | [C1 | [C1 | [C1 | C1]]]]];
    destruct (get_zone_cases v2 m Hm) as [C2 | [C2 | [C2 | [C2 | [C2 | C2]]]]];
    repeat match goal with
           | H : _ /\ _ |- _ => destruct H
           end;
    match goal with
    | Ha : get_zone (Num v1) m = Ok _, Hb : get_zone (Num v2) m = Ok _ |- _ =>
        rewrite Ha in H1; rewrite Hb in H2
    end;
    injection H1 as <-; injection H2 as <-;
    try lia; exfalso; qlra.
Qed.

Lemma get_zone_monotone_witness :
  exists z1 z2,
    get_zone (Num 100) 180 = Ok z1 /\ get_zone (Num 150) 180 = Ok z2 /\
    z1 <= z2.
Proof.
  exists 1, 4.
  assert (H1 : get_zone (Num 100) 180 = Ok 1) by reflexivity.
  assert (H2 : get_zone (Num 150) 180 = Ok 4) by reflexivity.
  split; [exact H1 |]. split; [exact H2 |].
  refine (get_zone_monotone 100 150 180 1 4 _ _ H1 H2).
  - lia.
  - vm_compute. discriminate.
Defined.

(** ** Duplicates, further *)

Lemma veqb_refl (v : value) : veqb v v = true.
Proof. destruct v; [apply Qeq_bool_refl | reflexivity]. Qed.

Lemma drop_duplicates_from_spec (seen : list value) (s : series value) :
  let out := drop_duplicates_from seen s in
  (forall p, In p out -> In p s) /\
  (forall p u, In p out -> In u seen -> veqb (snd p) u = false) /\
  ForallOrdPairs (fun a b => veqb (snd b) (snd a) = false) out /\
  (forall p, In p s ->
             existsb (veqb (snd p)) seen = true \/
             exists k, In k out /\ veqb (snd p) (snd k) = true).
Proof.
  revert seen. induction s as [| [t v] rest IH]; intro seen; cbn zeta.
  - cbn [drop_duplicates_from].
    split; [intros p [] |]. split; [intros p u [] |].
    split; [constructor | intros p []].
  - cbn [drop_duplicates_from].
    destruct (existsb (veqb v) seen) eqn:E.
    + destruct (IH seen) as (Hin & Hseen & Hpairs & Hcov).
      repeat split; auto.
      * intros p Hp. right. now apply Hin.
      * intros p [<- | Hp]; [left; exact E | now apply Hcov].
    + destruct (IH (v :: seen)) as (Hin & Hseen & Hpairs & Hcov).
      repeat split.
      * intros p [<- | Hp]; [now left | right; now apply Hin].
      * intros p u [<- | Hp] Hu.
        -- cbn [snd]. destruct (veqb v u) eqn:Evu; [| reflexivity].
           assert (Hex : existsb (veqb v) seen = true)
             by (apply existsb_exists; now exists u).
           congruence.
        -- apply (Hseen p u Hp). now right.
      * constructor; [| exact Hpairs].
        apply Forall_forall. intros k Hk. cbn [snd].
        apply (Hseen k v Hk). now left.
      * intros p [<- | Hp].
        -- right. exists (t, v). split; [now left |]. apply veqb_refl.
        -- destruct (Hcov p Hp) as [Hex | (k & Hk & Hkv)].
           ++ cbn [existsb] in Hex. apply orb_true_iff in Hex.
              destruct Hex as [Hv | Hex]; [| now left].
              right. exists (t, v). split; [now left | exact Hv].
           ++ right. exists k. split; [now right | exact Hkv].
Qed.

(** [drop_duplicates] only removes rows: every row it keeps is a row
    of the series and the first row is always kept.  No row it keeps
    has the heart rate of a row kept before it, and every heart rate
    of the series is still there on some kept row. *)
Theorem drop_duplicates_keeps_first_of_each_value (s : series value) :
  (forall p, In p (drop_duplicates s) -> In p s) /\
  hd_error (drop_duplicates s) = hd_error s /\
  ForallOrdPairs (fun a b => veqb (snd b) (snd a) = false)
                 (drop_duplicates s) /\
  (forall p, In p s ->
             exists k, In k (drop_duplicates s) /\
                       veqb (snd p) (snd k) = true).
Proof.
  destruct (drop_duplicates_from_spec [] s) as (Hin & _ & Hpairs & Hcov).
  split; [exact Hin |]. split; [| split; [exact Hpairs |]].
  - destruct s as [| [t v] rest]; reflexivity.
  - intros p Hp. destruct (Hcov p Hp) as [Hex | Hk]; [discriminate | exact Hk].
Qed.

(** ** Interpolation, further *)

Lemma next_valid_gap (k : nat) (b : Q) (post : list value) :
  next_valid (repeat NaN k ++ Num b :: post) = Some (k, b).
Proof.
  induction k as [| k IH]; [reflexivity |].
  cbn [repeat app next_valid]. now rewrite IH.
Qed.

Lemma interpolate_after_gap (a b : Q) (k j0 : nat) (post : list value) :
  interpolate_after a j0 (repeat NaN k ++ Num b :: post)
  = map (fun i => Num (a + (b - a) * inject_Z (Z.of_nat (j0 + i))
                           / inject_Z (Z.of_nat (j0 + k)))%Q)
        (seq 0 k)
    ++ Num b :: interpolate_after b 1 post.
Proof.
  revert j0. induction k as [| k IH]; intro j0; [reflexivity |].
  cbn [repeat app interpolate_after seq map].
  rewrite next_valid_gap, IH. f_equal.
  - replace (j0 + 0)%nat with j0 by lia.
    replace (j0 + S k)%nat with (j0 + k + 1)%nat by lia. reflexivity.
  - f_equal. rewrite <- seq_shift, map_map.
    apply map_ext. intro i.
    replace (j0 + S i)%nat with (S j0 + i)%nat by lia.
    replace (j0 + S k)%nat with (S j0 + k)%nat by lia. reflexivity.
Qed.

Lemma interpolate_values_app (pre t : list value) (a : Q) :
  interpolate_values (pre ++ Num a :: t)
  = interpolate_values (pre ++ [Num a]) ++ interpolate_after a 1 t.
Proof.
  induction pre as [| x pre IH]; [reflexivity |].
  destruct x as [v |]; cbn [app interpolate_values].
  - now rewrite interpolate_after_app.
  - now rewrite IH.
Qed.

(** A run of [k] NaN cells between a cell holding [a] and a cell
    holding [b] is filled with the equally spaced values
    [a + (b - a) * i / (k + 1)], [i] from 1 to [k]; what comes before
    and after is interpolated on its own. *)
Theorem interior_gap_is_linear (pre post : list value) (a b : Q) (k : nat) :
  interpolate_values (pre ++ Num a :: repeat NaN k ++ Num b :: post)
  = interpolate_values (pre ++ [Num a])
    ++ map (fun i => Num (a + (b - a) * inject_Z (Z.of_nat i)
                             / inject_Z (Z.of_nat (k + 1)))%Q)
           (seq 1 k)
    ++ interpolate_values (Num b :: post).
Proof.
  rewrite interpolate_values_app, interpolate_after_gap.
  f_equal. cbn [interpolate_values]. f_equal.
  rewrite <- seq_shift, map_map.
  apply map_ext. intro i.
  replace (1 + k)%nat with (k + 1)%nat by lia. reflexivity.
Qed.

Lemma interpolate_after_numbers (a : Q) (j : nat) (l : list value) :
  Forall (fun x => is_nan x = false) (interpolate_after a j l).
Proof.
  revert a j. induction l as [| x l IH]; intros a j; [constructor |].
  destruct x; cbn [interpolate_after]; constructor; auto.
Qed.

Lemma interpolate_after_keeps (a : Q) (j i : nat) (l : list value) (v : Q) :
  nth_error l i = Some (Num v) ->
  nth_error (interpolate_after a j l) i = Some (Num v).
Proof.
  revert a j i. induction l as [| x l IH]; intros a j i H;
    [destruct i; discriminate |].
  destruct i as [| i]; cbn [nth_error] in H.
  - injection H as ->. reflexivity.
  - destruct x; cbn [interpolate_after nth_error]; now apply IH.
Qed.

(** Interpolation leaves every cell that holds a number as it is, and
    a cell is still NaN afterwards only if it and all cells before it
    were NaN: once the series has a number, every later second has
    one. *)
Theorem interpolate_keeps_numbers (l : list value) :
  List.length (interpolate_values l) = List.length l /\
  (forall i v, nth_error l i = Some (Num v) ->
               nth_error (interpolate_values l) i = Some (Num v)) /\
  (forall i, nth_error (interpolate_values l) i = Some NaN ->
             forall j, (j <= i)%nat -> nth_error l j = Some NaN).
Proof.
  split; [apply interpolate_values_length |]. split.
  - induction l as [| x l IH]; intros i v H; [destruct i; discriminate |].
    destruct i as [| i]; cbn [nth_error] in H.
    + injection H as ->. reflexivity.
    + destruct x; cbn [interpolate_values nth_error].
      * now apply interpolate_after_keeps.
      * now apply IH.
  - induction l as [| x l IH]; intros i H j Hj; [destruct i; discriminate |].
    destruct x as [q |]; cbn [interpolate_values] in H.
    + exfalso. destruct i as [| i]; cbn [nth_error] in H; [discriminate |].
      apply nth_error_In in H.
      pose proof (interpolate_after_numbers q 1 l) as Hall.
      rewrite Forall_forall in Hall. specialize (Hall NaN H). discriminate.
    + destruct j as [| j]; [reflexivity |].
      destruct i as [| i]; [lia |].
      cbn [nth_error] in *. apply (IH i H). lia.
Qed.

Lemma next_valid_In (l : list value) (k : nat) (b : Q) :
  next_valid l = Some (k, b) -> In (Num b) l.
Proof.
  revert k. induction l as [| x l IH]; intros k H; [discriminate |].
  destruct x as [v |]; cbn [next_valid] in H.
  - injection H as _ ->. now left.
  - destruct (next_valid l) as [[k' b'] |]; [| discriminate].
    injection H as _ <-. right. now apply (IH k').
Qed.

Lemma between (lo hi a b : Q) (j n : nat) :
  (lo <= a <= hi)%Q -> (lo <= b <= hi)%Q -> (j < n)%nat ->
  (lo <= a + (b - a) * inject_Z (Z.of_nat j) / inject_Z (Z.of_nat n) <= hi)%Q.
Proof.
  intros Ha Hb Hj.
  set (J := inject_Z (Z.of_nat j)). set (N := inject_Z (Z.of_nat n)).
  assert (HN : (0 < N)%Q) by (unfold N, Qlt, inject_Z; cbn; lia).
  assert (HJ0 : (0 <= J)%Q) by (unfold J, Qle, inject_Z; cbn; lia).
  assert (HJN : (J <= N)%Q) by (unfold J, N, Qle, inject_Z; cbn; lia).
  assert (Hu0 : (0 <= J / N)%Q).
  { apply Qle_shift_div_l; [exact HN |]. qlra. }
  assert (Hu1 : (J / N <= 1)%Q).
  { apply Qle_shift_div_r; [exact HN |]. qlra. }
  assert (E : (a + (b - a) * J / N == a + (b - a) * (J / N))%Q)
    by (unfold Qdiv; ring).
  rewrite E. generalize dependent (J / N)%Q. intros u Hu0 Hu1 _.
  split; Lqa.nra.
Qed.

Lemma interpolate_after_bounds (lo hi a : Q) (j : nat) (l : list value) :
  (lo <= a <= hi)%Q ->
  (forall v, In (Num v) l -> (lo <= v <= hi)%Q) ->
  forall v, In (Num v) (interpolate_after a j l) -> (lo <= v <= hi)%Q.
Proof.
  revert a j. induction l as [| x l IH]; intros a j Ha Hl v Hv; [destruct Hv |].
  assert (Hl' : forall w, In (Num w) l -> (lo <= w <= hi)%Q)
    by (intros w Hw; apply Hl; now right).
  destruct x as [q |]; cbn [interpolate_after] in Hv.
  - assert (Hq : (lo <= q <= hi)%Q) by (apply Hl; now left).
    destruct Hv as [[= <-] | Hv]; [exact Hq | now apply (IH q 1%nat)].
  - destruct Hv as [[= <-] | Hv]; [| now apply (IH a (S j))].
    destruct (next_valid l) as [[k b] |] eqn:E; [| exact Ha].
    apply between; [exact Ha | | lia].
    apply Hl'. now apply (next_valid_In l k).
Qed.

Lemma interpolate_values_bounds (lo hi : Q) (l : list value) :
  (forall v, In (Num v) l -> (lo <= v <= hi)%Q) ->
  forall v, In (Num v) (interpolate_values l) -> (lo <= v <= hi)%Q.
Proof.
  induction l as [| x l IH]; intros Hl v Hv; [destruct Hv |].
  assert (Hl' : forall w, In (Num w) l -> (lo <= w <= hi)%Q)
    by (intros w Hw; apply Hl; now right).
  destruct x as [q |]; cbn [interpolate_values] in Hv.
  - assert (Hq : (lo <= q <= hi)%Q) by (apply Hl; now left).
    destruct Hv as [[= <-] | Hv]; [exact Hq |].
    now apply (interpolate_after_bounds lo hi q 1 l).
  - destruct Hv as [Hv | Hv]; [discriminate | now apply IH].
Qed.

(** Heart rates of the series stay within the bounds of the recorded
    ones: whatever [lo] and [hi] enclose every sample of the
    heart-rate stream also enclose every value of the per-second
    series, interpolated or not. *)
Theorem heart_rates_stay_in_range (time_stream : list Z)
    (hr_stream : list value) (s : series value) (lo hi : Q)
    (Hbounds : forall v, In (Num v) hr_stream -> (lo <= v <= hi)%Q)
    (Hs : per_second_series time_stream hr_stream = Ok s) :
  forall t v, In (t, Num v) s -> (lo <= v <= hi)%Q.
Proof.
  destruct (per_second_series_shape _ _ _ Hs) as (stop & _ & ->).
  intros t v Hin. unfold interpolate in Hin. apply in_combine_r in Hin.
  revert v Hin. apply interpolate_values_bounds.
  intros w Hw. unfold values in Hw. rewrite map_map in Hw. cbn [snd] in Hw.
  apply in_map_iff in Hw. destruct Hw as (u & Hu & _).
  destruct (lookup u _) as [x |] eqn:E; [| discriminate]. subst x.
  apply lookup_In_values in E. unfold values in E.
  apply in_map_iff in E. destruct E as ([u' x] & Hx & Hin). cbn [snd] in Hx.
  subst x.
  destruct (drop_duplicates_from_spec [] (combine time_stream hr_stream))
    as (Hsub & _).
  apply Hsub in Hin. apply in_combine_r in Hin. now apply Hbounds.
Qed.

Lemma heart_rates_stay_in_range_witness :
  per_second_series [0; 2; 4] [hr 100; hr 120; hr 140]
  = Ok [(0, hr 100); (1, Num (220 # 2)); (2, hr 120); (3, hr 120)] /\
  (100 <= 220 # 2 <= 140)%Q.
Proof.
  assert (Hs : per_second_series [0; 2; 4] [hr 100; hr 120; hr 140]
               = Ok [(0, hr 100); (1, Num (220 # 2)); (2, hr 120);
                     (3, hr 120)])
    by (vm_compute; reflexivity).
  split; [exact Hs |].
  refine (heart_rates_stay_in_range [0; 2; 4] [hr 100; hr 120; hr 140]
            _ 100 140 _ Hs 1 (220 # 2) _).
  - intros v [[= <-] | [[= <-] | [[= <-] | []]]]; split; vm_compute;
      discriminate.
  - right. left. reflexivity.
Defined.

(** ** When the series of an activity can be built *)

Lemma is_unique_NoDup (l : list Z) : is_unique l = true <-> NoDup l.
Proof.
  induction l as [| x l IH]; cbn [is_unique].
  - split; [constructor | reflexivity].
  - rewrite andb_true_iff, negb_true_iff, IH. split.
    + intros [Hx Hl]. constructor; [| exact Hl].
      intro Hin.
      assert (E : existsb (Z.eqb x) l = true)
        by (apply existsb_exists; exists x; split;
            [exact Hin | apply Z.eqb_refl]).
      congruence.
    + intro H. inversion H as [| ? ? Hx Hl]; subst. split; [| exact Hl].
      destruct (existsb (Z.eqb x) l) eqn:E; [| reflexivity].
      apply existsb_exists in E. destruct E as (y & Hy & Exy).
      apply Z.eqb_eq in Exy. subst y. contradiction.
Qed.

Lemma fold_max_upper (l : list Z) (x : Z) :
  forall t, In t (x :: l) -> t <= fold_left Z.max l x.
Proof.
  revert x. induction l as [| a l IH]; intros x t Ht; cbn [fold_left].
  - destruct Ht as [<- | []]. lia.
  - destruct Ht as [Ht | [Ht | Ht]].
    + transitivity (Z.max x a); [lia | apply IH; now left].
    + transitivity (Z.max x a); [lia | apply IH; now left].
    + apply IH. now right.
Qed.

(** Building the series of an activity fails in three cases only, each
    time with [ValueError]: the two streams differ in length, the time
    stream is empty, or two samples left after [drop_duplicates] carry
    the same time.  Otherwise the series has one row for each second
    from 0 up to, and not including, the largest time of the time
    stream. *)
Theorem per_second_series_outcome (time_stream : list Z)
    (hr_stream : list value) :
  match per_second_series time_stream hr_stream with
  | Ok s =>
      List.length hr_stream = List.length time_stream /\
      NoDup (index (drop_duplicates (combine time_stream hr_stream))) /\
      exists stop,
        In stop time_stream /\
        (forall t, In t time_stream -> t <= stop) /\
        index s = range stop /\
        List.length s = Z.to_nat stop
  | Raise e =>
      e = ValueError /\
      (List.length hr_stream <> List.length time_stream \/
       time_stream = [] \/
       ~ NoDup (index (drop_duplicates (combine time_stream hr_stream))))
  end.
Proof.
  unfold per_second_series, Series, reindex.
  destruct (Nat.eqb_spec (List.length hr_stream) (List.length time_stream))
    as [Hlen | Hlen]; cbn [bind]; [| split; [reflexivity | now left]].
  destruct time_stream as [| x times]; cbn [py_max bind];
    [split; [reflexivity | right; now left] |].
  destruct (is_unique _) eqn:Eu; cbn [bind].
  - apply is_unique_NoDup in Eu.
    split; [exact Hlen |]. split; [exact Eu |].
    exists (fold_left Z.max times x).
    split; [apply fold_max_In |]. split; [apply fold_max_upper |].
    assert (Hidx : forall (g : Z -> value) target,
               index (interpolate (map (fun t => (t, g t)) target)) = target).
    { intros g target. rewrite index_interpolate. unfold index.
      rewrite map_map. cbn [fst]. apply map_id. }
    split; [apply Hidx |].
    assert (Hl : forall s0 : series value,
               List.length s0 = List.length (index s0))
      by (intro s0; unfold index; now rewrite length_map).
    rewrite Hl, Hidx. unfold range. now rewrite length_map, length_seq.
  - split; [reflexivity |]. right. right.
    intro H. apply is_unique_NoDup in H. congruence.
Qed.

(** ** The minutes per zone of an activity *)

Lemma apply_values {A B : Type} (f : A -> result B) (s : series A)
    (zs : series B) :
  apply f s = Ok zs ->
  List.length zs = List.length s /\
  forall z, In z (values zs) -> exists x, In x (values s) /\ f x = Ok z.
Proof.
  revert zs. induction s as [| [t v] rest IH]; intros zs H; cbn [apply] in H.
  - injection H as <-. split; [reflexivity | intros z []].
  - destruct (f v) as [z' |] eqn:Ez; [| discriminate].
    destruct (apply f rest) as [zs' |]; [| discriminate].
    cbn [bind] in H. injection H as <-.
    destruct (IH zs' eq_refl) as [Hlen Hval].
    split; [cbn [List.length]; now rewrite Hlen |].
    unfold values in *. cbn [map snd In].
    intros z [<- | Hz].
    + exists v. split; [now left | exact Ez].
    + destruct (Hval z Hz) as (x & Hx & Hfx). exists x. split; [now right | exact Hfx].
Qed.

Lemma index_aggregate (zs : series Z) :
  index (aggregate zs) = nodup Z.eq_dec (values zs).
Proof.
  unfold aggregate, index. rewrite map_map. cbn [fst]. apply map_id.
Qed.

Lemma minutes_positive (c : nat) :
  (0 < c)%nat -> (0 < inject_Z (Z.of_nat c) / 60)%Q.
Proof.
  intro H. apply Qlt_shift_div_l; [reflexivity |].
  unfold Qlt, inject_Z. cbn. lia.
Qed.

(** The aggregate of an activity lists each zone at most once, lists
    only zones from 0 to 5, and gives every zone it lists a positive
    number of minutes, a sixtieth of the number of seconds classified
    into it: a zone with no second is absent, not listed with 0. *)
Theorem zone_minutes_entries (time_stream : list Z) (hr_stream : list value)
    (hr_max : Z) (agg : series Q)
    (Hagg : zone_minutes time_stream hr_stream hr_max = Ok agg) :
  NoDup (index agg) /\
  forall z q, In (z, q) agg ->
              0 <= z <= 5 /\ (0 < q)%Q /\ lookup z agg = Some q.
Proof.
  unfold zone_minutes in Hagg.
  destruct (per_second_series time_stream hr_stream) as [s |]; [| discriminate].
  cbn [bind] in Hagg.
  destruct (apply _ s) as [zs |] eqn:Ezs; [| discriminate].
  cbn [bind] in Hagg. injection Hagg as <-.
  split; [rewrite index_aggregate; apply NoDup_nodup |].
  intros z q Hin. unfold aggregate in Hin.
  apply in_map_iff in Hin. destruct Hin as (z' & [= -> <-] & Hz).
  apply nodup_In in Hz.
  destruct (apply_values _ _ _ Ezs) as [_ Hval].
  destruct (Hval z Hz) as (x & _ & Hx). cbn beta in Hx.
  split; [now apply (get_zone_range x hr_max) |].
  split; [apply minutes_positive; now apply count_In |].
  unfold aggregate.
  apply (lookup_keyed
           (fun k => (inject_Z (Z.of_nat (count k (values zs))) / 60)%Q)).
  now apply nodup_In.
Qed.

Lemma zone_minutes_entries_witness :
  zone_minutes [2; 3; 4] [hr 100; hr 110; hr 120] 200
  = Ok [(0, (2 # 60)%Q); (1, (2 # 60)%Q)] /\
  0 <= 1 <= 5 /\ (0 < 2 # 60)%Q.
Proof.
  assert (Hagg : zone_minutes [2; 3; 4] [hr 100; hr 110; hr 120] 200
                 = Ok [(0, (2 # 60)%Q); (1, (2 # 60)%Q)]) by reflexivity.
  split; [exact Hagg |].
  destruct (zone_minutes_entries _ _ _ _ Hagg) as [_ H].
  destruct (H 1 (2 # 60)%Q) as (Hz & Hq & _); [right; left; reflexivity |].
  now split.
Defined.

Lemma sum_indicator (x : Z) (K : list Z) :
  NoDup K -> In x K ->
  fold_right Nat.add 0%nat (map (fun z : Z => if (z =? x)%Z then 1%nat else 0%nat) K)
  = 1%nat.
Proof.
  induction 1 as [| k K Hk HK IH]; [intros [] |].
  intro Hin. cbn [map fold_right].
  destruct (Z.eqb_spec k x) as [-> | Hne].
  - assert (E : fold_right Nat.add 0%nat
                  (map (fun z : Z => if (z =? x)%Z then 1%nat else 0%nat) K) = 0%nat).
    { clear IH HK Hin. induction K as [| k' K IHK]; [reflexivity |].
      cbn [map fold_right].
      destruct (Z.eqb_spec k' x) as [-> | _];
        [exfalso; apply Hk; now left |].
      apply IHK. intro H. apply Hk. now right. }
    now rewrite E.
  - destruct Hin as [-> | Hin]; [contradiction |]. now rewrite IH.
Qed.

Lemma sum_counts (K l : list Z) :
  NoDup K -> (forall z, In z l -> In z K) ->
  fold_right Nat.add 0%nat (map (fun z => count z l) K) = List.length l.
Proof.
  intros HK. induction l as [| x l IH]; intro Hall.
  - unfold count. cbn [filter List.length].
    clear HK Hall. induction K as [| k K IHK]; [reflexivity | exact IHK].
  - assert (E : forall K',
               fold_right Nat.add 0%nat (map (fun z => count z (x :: l)) K')
               = (fold_right Nat.add 0%nat
                    (map (fun z : Z => if (z =? x)%Z then 1%nat else 0%nat) K')
                  + fold_right Nat.add 0%nat (map (fun z => count z l) K'))%nat).
    { induction K' as [| k K' IHK']; [reflexivity |].
      cbn [map fold_right]. rewrite IHK'. unfold count. cbn [filter].
      destruct (k =? x); cbn [List.length]; lia. }
    rewrite E, sum_indicator, IH; cbn [List.length]; auto.
    + intros z Hz. apply Hall. now right.
    + apply Hall. now left.
Qed.

Lemma total_aggregate (zs : series Z) :
  (total (aggregate zs) == inject_Z (Z.of_nat (List.length zs)) / 60)%Q.
Proof.
  unfold total, aggregate, values. rewrite map_map. cbn [snd].
  assert (E : forall K,
             (fold_right Qplus 0
                (map (fun z => inject_Z (Z.of_nat (count z (map snd zs))) / 60) K)
              == inject_Z (Z.of_nat (fold_right Nat.add 0%nat
                                       (map (fun z => count z (map snd zs)) K)))
                 / 60)%Q).
  { induction K as [| k K IHK]; [reflexivity |].
    cbn [map fold_right]. rewrite IHK, Nat2Z.inj_add, inject_Z_plus.
    field. }
  rewrite E, sum_counts.
  - now rewrite length_map.
  - apply NoDup_nodup.
  - intros z Hz. now apply nodup_In.
Qed.

(** No second is lost or counted twice: the minutes of all zones of
    an activity add up to a sixtieth of the largest time of its time
    stream (to 0 when that is negative), the number of seconds of its
    series. *)
Theorem zone_minutes_add_up (time_stream : list Z) (hr_stream : list value)
    (hr_max : Z) (agg : series Q)
    (Hagg : zone_minutes time_stream hr_stream hr_max = Ok agg) :
  exists stop,
    py_max time_stream = Ok stop /\
    (total agg == inject_Z (Z.max 0 stop) / 60)%Q.
Proof.
  unfold zone_minutes in Hagg.
  destruct (per_second_series time_stream hr_stream) as [s |] eqn:Es;
    [| discriminate].
  destruct (per_second_series_shape _ _ _ Es) as (stop & Hstop & Hs).
  cbn [bind] in Hagg.
  destruct (apply _ s) as [zs |] eqn:Ezs; [| discriminate].
  cbn [bind] in Hagg. injection Hagg as <-.
  exists stop. split; [exact Hstop |].
  rewrite total_aggregate.
  destruct (apply_values _ _ _ Ezs) as [-> _].
  assert (Hlen : List.length s = Z.to_nat stop).
  { rewrite Hs.
    assert (Hl : forall s0 : series value,
               List.length s0 = List.length (index s0))
      by (intro s0; unfold index; now rewrite length_map).
    rewrite Hl, index_interpolate. unfold index, range.
    now rewrite !length_map, length_seq. }
  rewrite Hlen. replace (Z.of_nat (Z.to_nat stop)) with (Z.max 0 stop) by lia.
  reflexivity.
Qed.

Lemma zone_minutes_add_up_witness :
  exists stop,
    py_max [2; 3; 4] = Ok stop /\
    (total [(0%Z, 2 # 60); (1%Z, 2 # 60)]
     == inject_Z (Z.max 0 stop) / 60)%Q.
Proof.
  exact (zone_minutes_add_up [2; 3; 4] [hr 100; hr 110; hr 120] 200
           [(0, (2 # 60)%Q); (1, (2 # 60)%Q)] eq_refl).
Defined.

(** ** What one activity writes to the frame *)

Lemma process_activity_unfold (parse_date : string -> result Z)
    (df : data_frame) (a : json) (hr_max : Z) :
  process_activity parse_date df a hr_max
  = (o <- activity_minutes a hr_max ;;
     match o with
     | None => Ok df
     | Some agg =>
         d <- date_of parse_date a ;;
         update_loc d (fun r => i <- getitem a "id" ;;
                                n <- getitem a "name" ;;
                                Ok (written agg i n r)) df
     end).
Proof.
  unfold process_activity, activity_minutes.
  destruct (get_stream a "time") as [ts |]; [| reflexivity].
  destruct (get_stream a "heartrate") as [hs |]; [| reflexivity].
  cbn [bind]. destruct (is_None ts || is_None hs); [reflexivity |].
  destruct (decode_time ts); [| reflexivity].
  destruct (decode_hr hs); [| reflexivity]. cbn [bind].
  destruct (zone_minutes _ _ _); reflexivity.
Qed.

Lemma update_loc_lookup (label : Z) (f : row -> result row)
    (df df' : data_frame) :
  update_loc label f df = Ok df' ->
  exists r r',
    lookup label df = Some r /\ f r = Ok r' /\
    forall d, lookup d df' = if d =? label then Some r' else lookup d df.
Proof.
  revert df'. induction df as [| [d0 r0] rest IH]; intros df' H;
    cbn [update_loc] in H; [discriminate |].
  destruct (Z.eqb_spec label d0) as [-> | Hne].
  - destruct (f r0) as [r0' |] eqn:Ef; [| discriminate].
    injection H as <-. exists r0, r0'. cbn [lookup]. rewrite Z.eqb_refl.
    split; [reflexivity |]. split; [exact Ef |].
    intro d. destruct (d =? d0); reflexivity.
  - destruct (update_loc label f rest) as [rest' |]; [| discriminate].
    injection H as <-.
    destruct (IH rest' eq_refl) as (r & r' & Hr & Hf & Hl).
    exists r, r'. cbn [lookup].
    destruct (Z.eqb_spec label d0) as [E | _]; [contradiction |].
    split; [exact Hr |]. split; [exact Hf |].
    intro d. rewrite Hl.
    destruct (Z.eqb_spec d d0) as [-> | _]; [| reflexivity].
    destruct (Z.eqb_spec d0 label) as [E | _]; [congruence | reflexivity].
Qed.

Lemma update_loc_miss (label : Z) (f : row -> result row) (df : data_frame) :
  ~ In label (index df) -> update_loc label f df = Raise KeyError.
Proof.
  induction df as [| [d r] rest IH]; [reflexivity |].
  unfold index in *. cbn [map fst In update_loc]. intro H.
  destruct (Z.eqb_spec label d) as [-> | _]; [exfalso; apply H; now left |].
  rewrite IH; [reflexivity |]. intro Hin. apply H. now right.
Qed.

(** How a run of [process_activity] that returns has changed the
    frame: not at all when the activity is skipped, and otherwise in
    the one row of the activity's date. *)
Lemma process_activity_lookup (parse_date : string -> result Z)
    (df df' : data_frame) (a : json) (hr_max : Z) :
  process_activity parse_date df a hr_max = Ok df' ->
  (activity_minutes a hr_max = Ok None /\ df' = df) \/
  (exists agg d i n r,
      activity_minutes a hr_max = Ok (Some agg) /\
      date_of parse_date a = Ok d /\
      getitem a "id" = Ok i /\ getitem a "name" = Ok n /\
      lookup d df = Some r /\
      forall d', lookup d' df'
                 = if d' =? d then Some (written agg i n r) else lookup d' df).
Proof.
  rewrite process_activity_unfold. intro H.
  destruct (activity_minutes a hr_max) as [[agg |] |]; cbn [bind] in H;
    [| left; split; [reflexivity | now injection H] | discriminate].
  right. destruct (date_of parse_date a) as [d |]; [| discriminate].
  cbn [bind] in H.
  destruct (update_loc_lookup _ _ _ _ H) as (r & r' & Hr & Hf & Hl).
  destruct (getitem a "id") as [i |]; [| discriminate].
  destruct (getitem a "name") as [n |]; [| discriminate].
  cbn [bind] in Hf. injection Hf as <-.
  exists agg, d, i, n, r. repeat split; auto.
Qed.

Lemma written_tz (agg : series Q) (i n : json) (r : row) (key : Z) :
  0 <= key <= 5 ->
  get_tz key (written agg i n r)
  = Some (fill 0 (get_tz key r) + minutes_in agg key)%Q.
Proof.
  intro H.
  assert (E : key = 0 \/ key = 1 \/ key = 2 \/ key = 3 \/ key = 4 \/ key = 5)
    by lia.
  destruct r.
  destruct E as [-> | [-> | [-> | [-> | [-> | ->]]]]]; reflexivity.
Qed.

Lemma written_id_name (agg : series Q) (i n : json) (r : row) :
  raw_id (written agg i n r) = Some i /\ raw_name (written agg i n r) = Some n.
Proof. destruct r. split; reflexivity. Qed.

(** An activity that has both streams writes to the row of its date
    and to no other row: id and name are overwritten with its own, and
    each of tz0 to tz5 becomes what it was (0 if unset) plus the
    activity's minutes in that zone (0 if the zone is absent from its
    aggregate), so that no cell of the six is unset afterwards. *)
Theorem activity_adds_to_its_day (parse_date : string -> result Z)
    (df df' : data_frame) (a : json) (hr_max : Z) (agg : series Q)
    (Hrun : process_activity parse_date df a hr_max = Ok df')
    (Hagg : activity_minutes a hr_max = Ok (Some agg)) :
  exists d i n r r',
    date_of parse_date a = Ok d /\
    getitem a "id" = Ok i /\ getitem a "name" = Ok n /\
    lookup d df = Some r /\ lookup d df' = Some r' /\
    raw_id r' = Some i /\ raw_name r' = Some n /\
    (forall key, 0 <= key <= 5 ->
                 get_tz key r'
                 = Some (fill 0 (get_tz key r) + minutes_in agg key)%Q) /\
    (forall d', d' <> d -> lookup d' df' = lookup d' df) /\
    index df' = index df.
Proof.
  destruct (process_activity_lookup _ _ _ _ _ Hrun)
    as [[Hnone _] | (agg' & d & i & n & r & Hagg' & Hd & Hi & Hn & Hr & Hl)];
    [congruence |].
  assert (agg' = agg) by congruence. subst agg'.
  exists d, i, n, r, (written agg i n r).
  destruct (written_id_name agg i n r) as [Hid Hname].
  repeat split; auto.
  - rewrite Hl. now rewrite Z.eqb_refl.
  - intros key Hkey. now apply written_tz.
  - intros d' Hne. rewrite Hl.
    destruct (Z.eqb_spec d' d); [contradiction | reflexivity].
  - now destruct (process_activity_frame _ _ _ _ _ Hrun).
Qed.

Lemma activity_adds_to_its_day_witness :
  exists r',
    lookup 738521
      [(738521, written [(1, (5 # 60)%Q)] (JInt 1) (JStr "Run") empty_row)]
    = Some r' /\
    get_tz 1 r' = Some (0 + (5 # 60))%Q /\ get_tz 2 r' = Some (0 + 0)%Q.
Proof.
  assert (Hrun : process_activity calendar [(738521, empty_row)]
                   six_seconds_at_90 180
                 = Ok [(738521, written [(1, (5 # 60)%Q)] (JInt 1)
                                        (JStr "Run") empty_row)])
    by reflexivity.
  assert (Hagg : activity_minutes six_seconds_at_90 180
                 = Ok (Some [(1, (5 # 60)%Q)])) by reflexivity.
  destruct (activity_adds_to_its_day _ _ _ _ _ _ Hrun Hagg)
    as (d & i & n & r & r' & Hd & _ & _ & Hr & Hr' & _ & _ & Htz & _).
  injection Hd as <-. injection Hr as <-.
  exists r'. split; [exact Hr' |].
  split; [apply (Htz 1) | apply (Htz 2)]; lia.
Defined.

(** ** Several activities on one day *)

(** Two activities with streams dated on the same day, processed one
    after the other: each zone of that day ends with what it held
    before plus the minutes of both, and id and name are those of the
    activity processed last.  Processing the same activity twice
    therefore counts its minutes twice. *)
Theorem same_day_activities_add_up (parse_date : string -> result Z)
    (df df1 df2 : data_frame) (a b : json) (hr_max d : Z)
    (agg_a agg_b : series Q) (r : row)
    (Ha : process_activity parse_date df a hr_max = Ok df1)
    (Hb : process_activity parse_date df1 b hr_max = Ok df2)
    (Hagg_a : activity_minutes a hr_max = Ok (Some agg_a))
    (Hagg_b : activity_minutes b hr_max = Ok (Some agg_b))
    (Hda : date_of parse_date a = Ok d)
    (Hdb : date_of parse_date b = Ok d)
    (Hr : lookup d df = Some r) :
  exists r2 i n,
    lookup d df2 = Some r2 /\
    getitem b "id" = Ok i /\ getitem b "name" = Ok n /\
    raw_id r2 = Some i /\ raw_name r2 = Some n /\
    forall key, 0 <= key <= 5 ->
                get_tz key r2
                = Some (fill 0 (get_tz key r) + minutes_in agg_a key
                        + minutes_in agg_b key)%Q.
Proof.
  destruct (process_activity_lookup _ _ _ _ _ Ha)
    as [[Hnone _] | (agg & da & ia & na & ra & Hagg & Hd & _ & _ & Hra & Hla)];
    [congruence |].
  assert (agg = agg_a) by congruence. assert (da = d) by congruence.
  assert (ra = r) by congruence. subst agg da ra.
  destruct (process_activity_lookup _ _ _ _ _ Hb)
    as [[Hnone _] | (agg & db & ib & nb & rb & Hagg' & Hd' & Hi & Hn & Hrb & Hlb)];
    [congruence |].
  assert (agg = agg_b) by congruence. assert (db = d) by congruence.
  subst agg db.
  rewrite Hla, Z.eqb_refl in Hrb. injection Hrb as <-.
  exists (written agg_b ib nb (written agg_a ia na r)), ib, nb.
  destruct (written_id_name agg_b ib nb (written agg_a ia na r)) as [Hid Hname].
  split; [rewrite Hlb; now rewrite Z.eqb_refl |].
  repeat (split; [assumption |]).
  intros key Hkey. rewrite !written_tz by exact Hkey. reflexivity.
Qed.

Lemma same_day_activities_add_up_witness :
  exists r2,
    lookup 738521
      [(738521, written [(1, (5 # 60)%Q)] (JInt 1) (JStr "Run")
                  (written [(1, (5 # 60)%Q)] (JInt 1) (JStr "Run") empty_row))]
    = Some r2 /\
    get_tz 1 r2 = Some (0 + (5 # 60) + (5 # 60))%Q.
Proof.
  assert (Ha : process_activity calendar [(738521, empty_row)]
                 six_seconds_at_90 180
               = Ok [(738521, written [(1, (5 # 60)%Q)] (JInt 1)
                                      (JStr "Run") empty_row)])
    by reflexivity.
  assert (Hb : process_activity calendar
                 [(738521, written [(1, (5 # 60)%Q)] (JInt 1)
                                   (JStr "Run") empty_row)]
                 six_seconds_at_90 180
               = Ok [(738521,
                      written [(1, (5 # 60)%Q)] (JInt 1) (JStr "Run")
                        (written [(1, (5 # 60)%Q)] (JInt 1) (JStr "Run")
                                 empty_row))])
    by reflexivity.
  destruct (same_day_activities_add_up calendar _ _ _ _ _ 180 738521
              [(1, (5 # 60)%Q)] [(1, (5 # 60)%Q)] empty_row
              Ha Hb eq_refl eq_refl eq_refl eq_refl eq_refl)
    as (r2 & i & n & Hr2 & _ & _ & _ & _ & Htz).
  exists r2. split; [exact Hr2 |]. apply (Htz 1). lia.
Defined.

Lemma cell_eq_refl (c : option Q) : cell_eq c c.
Proof. destruct c; cbn; [reflexivity | exact I]. Qed.

Lemma same_minutes_refl (r : row) : same_minutes r r.
Proof. intros key _. apply cell_eq_refl. Qed.

(** The minutes of a day do not depend on the order in which two
    activities are processed: whenever both orders run through, every
    row holds the same minutes in each zone either way.  (Id and name
    may differ: they are those of the activity processed last.) *)
Theorem merge_order_is_irrelevant (parse_date : string -> result Z)
    (df dfa dfb df1 df2 : data_frame) (a b : json) (hr_max : Z)
    (Ha1 : process_activity parse_date df a hr_max = Ok dfa)
    (Hb1 : process_activity parse_date dfa b hr_max = Ok df1)
    (Hb2 : process_activity parse_date df b hr_max = Ok dfb)
    (Ha2 : process_activity parse_date dfb a hr_max = Ok df2) :
  index df1 = index df2 /\
  forall d r1 r2,
    lookup d df1 = Some r1 -> lookup d df2 = Some r2 -> same_minutes r1 r2.
Proof.
  split.
  { destruct (process_activity_frame _ _ _ _ _ Ha1) as [E1 _].
    destruct (process_activity_frame _ _ _ _ _ Hb1) as [E2 _].
    destruct (process_activity_frame _ _ _ _ _ Hb2) as [E3 _].
    destruct (process_activity_frame _ _ _ _ _ Ha2) as [E4 _].
    congruence. }
  intros d r1 r2 H1 H2.
  assert (Hsame : r1 = r2 -> same_minutes r1 r2)
    by (intros ->; apply same_minutes_refl).
  destruct (process_activity_lookup _ _ _ _ _ Ha1)
    as [[Hna ->] |
        (agga & da & ia & na & ra & Hagga & Hda & Hia & Hna & Hra & Hla)].
  { destruct (process_activity_lookup _ _ _ _ _ Ha2)
      as [[_ ->] | (agg & ? & ? & ? & ? & Hagg & _)]; [| congruence].
    apply Hsame. congruence. }
  destruct (process_activity_lookup _ _ _ _ _ Hb1)
    as [[Hnb ->] |
        (aggb & db & ib & nb & rb1 & Haggb & Hdb & Hib & Hnb & Hrb1 & Hlb1)].
  { destruct (process_activity_lookup _ _ _ _ _ Hb2)
      as [[_ ->] | (agg & ? & ? & ? & ? & Hagg & _)]; [| congruence].
    apply Hsame. congruence. }
  destruct (process_activity_lookup _ _ _ _ _ Hb2)
    as [[Hnone _] |
        (aggb' & db' & ib' & nb' & rb & Haggb' & Hdb' & Hib' & Hnb' & Hrb & Hlb2)];
    [congruence |].
  destruct (process_activity_lookup _ _ _ _ _ Ha2)
    as [[Hnone _] |
        (agga' & da' & ia' & na' & ra2 & Hagga' & Hda' & Hia' & Hna' & Hra2 & Hla2)];
    [congruence |].
  assert (aggb' = aggb) by congruence. assert (db' = db) by congruence.
  assert (ib' = ib) by congruence. assert (nb' = nb) by congruence.
  assert (agga' = agga) by congruence. assert (da' = da) by congruence.
  assert (ia' = ia) by congruence. assert (na' = na) by congruence.
  subst aggb' db' ib' nb' agga' da' ia' na'.
  rewrite Hla in Hrb1. rewrite Hlb2 in Hra2.
  rewrite Hlb1, Hla in H1. rewrite Hla2, Hlb2 in H2.
  destruct (Z.eqb_spec db da) as [Edb | Hne].
  - subst db. rewrite Z.eqb_refl in Hra2.
    injection Hrb1 as <-. injection Hra2 as <-.
    assert (rb = ra) by congruence. subst rb.
    destruct (d =? da); [| apply Hsame; congruence].
    injection H1 as <-. injection H2 as <-.
    intros key Hkey. rewrite !written_tz by exact Hkey.
    cbn [cell_eq fill]. ring.
  - destruct (Z.eqb_spec da db) as [E | _]; [congruence |].
    assert (rb1 = rb) by congruence. assert (ra2 = ra) by congruence.
    subst rb1 ra2.
    destruct (Z.eqb_spec d db) as [Hd1 | Hd1];
      destruct (Z.eqb_spec d da) as [Hd2 | Hd2];
      try congruence; apply Hsame; congruence.
Qed.

Lemma merge_order_is_irrelevant_witness :
  exists df1 df2 r1 r2,
    foldM (fun df x => process_activity calendar df x 180)
          [(738521, empty_row)]
          [activity 1 "Run" "2023-01-01T08:00:00Z" [0; 1; 2] [100; 110; 120];
           activity 2 "Ride" "2023-01-01T08:00:00Z" [0; 1] [150; 160]]
    = Ok df1 /\
    foldM (fun df x => process_activity calendar df x 180)
          [(738521, empty_row)]
          [activity 2 "Ride" "2023-01-01T08:00:00Z" [0; 1] [150; 160];
           activity 1 "Run" "2023-01-01T08:00:00Z" [0; 1; 2] [100; 110; 120]]
    = Ok df2 /\
    lookup 738521 df1 = Some r1 /\ lookup 738521 df2 = Some r2 /\
    raw_id r1 = Some (JInt 2) /\ raw_id r2 = Some (JInt 1) /\
    same_minutes r1 r2.
Proof.
  set (a := activity 1 "Run" "2023-01-01T08:00:00Z" [0; 1; 2] [100; 110; 120]).
  set (b := activity 2 "Ride" "2023-01-01T08:00:00Z" [0; 1] [150; 160]).
  destruct (process_activity calendar [(738521, empty_row)] a 180)
    as [dfa |] eqn:Ha1; [| vm_compute in Ha1; discriminate].
  destruct (process_activity calendar dfa b 180)
    as [df1 |] eqn:Hb1;
    [| vm_compute in Ha1; injection Ha1 as <-; vm_compute in Hb1;
       discriminate].
  destruct (process_activity calendar [(738521, empty_row)] b 180)
    as [dfb |] eqn:Hb2; [| vm_compute in Hb2; discriminate].
  destruct (process_activity calendar dfb a 180)
    as [df2 |] eqn:Ha2;
    [| vm_compute in Hb2; injection Hb2 as <-; vm_compute in Ha2;
       discriminate].
  pose proof (merge_order_is_irrelevant calendar _ _ _ _ _ _ _ _
                Ha1 Hb1 Hb2 Ha2) as [_ Hsame].
  assert (E1 : foldM (fun df x => process_activity calendar df x 180)
                 [(738521, empty_row)] [a; b] = Ok df1)
    by (cbn [foldM]; rewrite Ha1; cbn [bind]; rewrite Hb1; reflexivity).
  assert (E2 : foldM (fun df x => process_activity calendar df x 180)
                 [(738521, empty_row)] [b; a] = Ok df2)
    by (cbn [foldM]; rewrite Hb2; cbn [bind]; rewrite Ha2; reflexivity).
  vm_compute in Ha1. injection Ha1 as <-.
  vm_compute in Hb1. injection Hb1 as <-.
  vm_compute in Hb2. injection Hb2 as <-.
  vm_compute in Ha2. injection Ha2 as <-.
  do 4 eexists. split; [exact E1 |]. split; [exact E2 |].
  split; [reflexivity |]. split; [reflexivity |].
  split; [reflexivity |]. split; [reflexivity |].
  apply (Hsame 738521); reflexivity.
Defined.

(** ** Dates outside the frame *)

(** An activity that has both streams and whose date has no row in
    the frame makes [process_activity] raise [KeyError]; in a frame
    built from [data[0]] that is every date before the date of
    [data[0]] and every date after today.  A skipped activity never
    raises it. *)
Theorem date_outside_frame_raises (parse_date : string -> result Z)
    (first : json) (rest : list json) (today d0 d hr_max : Z)
    (a : json) (agg : series Q) (df : data_frame)
    (Hframe : make_frame parse_date (first :: rest) today = Ok df)
    (Hfirst : date_of parse_date first = Ok d0)
    (Hagg : activity_minutes a hr_max = Ok (Some agg))
    (Hdate : date_of parse_date a = Ok d)
    (Hout : d < d0 \/ today < d) :
  process_activity parse_date df a hr_max = Raise KeyError.
Proof.
  rewrite process_activity_unfold, Hagg. cbn [bind]. rewrite Hdate.
  cbn [bind]. apply update_loc_miss.
  unfold make_frame in Hframe. rewrite Hfirst in Hframe.
  cbn [bind] in Hframe. injection Hframe as <-.
  rewrite index_frame, date_range_In. lia.
Qed.

Lemma date_outside_frame_raises_witness :
  process_activity calendar
    [(738530, empty_row); (738531, empty_row); (738532, empty_row)]
    (activity 1 "Run" "2023-01-05T08:00:00Z" [0; 1] [130; 131]) 180
  = Raise KeyError.
Proof.
  assert (Hout : 738525 < 738530 \/ 738532 < 738525) by (left; lia).
  exact (date_outside_frame_raises calendar
           (activity 2 "Ride" "2023-01-10T08:00:00Z" [0; 1] [120; 121])
           [activity 1 "Run" "2023-01-05T08:00:00Z" [0; 1] [130; 131]]
           738532 738530 738525 180
           (activity 1 "Run" "2023-01-05T08:00:00Z" [0; 1] [130; 131])
           [(3, (1 # 60)%Q)]
           [(738530, empty_row); (738531, empty_row); (738532, empty_row)]
           eq_refl eq_refl eq_refl eq_refl Hout).
Defined.

(** ** What holds of every row of the finished table *)

Lemma minutes_nonneg (c : nat) : (0 <= inject_Z (Z.of_nat c) / 60)%Q.
Proof.
  apply Qle_shift_div_l; [reflexivity |].
  unfold Qle, inject_Z. cbn. lia.
Qed.

Lemma aggregate_nonneg (zs : series Z) (key : Z) :
  (0 <= minutes_in (aggregate zs) key)%Q.
Proof.
  unfold minutes_in.
  destruct (lookup key (aggregate zs)) as [q |] eqn:E; [| apply Qle_refl].
  apply lookup_In_values in E. unfold aggregate, values in E.
  rewrite map_map in E. cbn [snd] in E.
  apply in_map_iff in E. destruct E as (z & <- & _). apply minutes_nonneg.
Qed.

Lemma activity_minutes_nonneg (a : json) (hr_max : Z) (agg : series Q) :
  activity_minutes a hr_max = Ok (Some agg) ->
  forall key, (0 <= minutes_in agg key)%Q.
Proof.
  unfold activity_minutes. intro H.
  destruct (get_stream a "time") as [ts |]; [| discriminate].
  destruct (get_stream a "heartrate") as [hs |]; [| discriminate].
  cbn [bind] in H. destruct (is_None ts || is_None hs); [discriminate |].
  destruct (decode_time ts) as [times |]; [| discriminate].
  destruct (decode_hr hs) as [hrs |]; [| discriminate].
  cbn [bind] in H. unfold zone_minutes in H.
  destruct (per_second_series times hrs) as [s |]; [| discriminate].
  cbn [bind] in H. destruct (apply _ s) as [zs |]; [| discriminate].
  cbn [bind] in H. injection H as <-. apply aggregate_nonneg.
Qed.

Lemma written_nonneg (agg : series Q) (i n : json) (r : row) :
  (forall key, (0 <= minutes_in agg key)%Q) ->
  row_nonneg r -> row_nonneg (written agg i n r).
Proof.
  intros Hagg Hr key Hkey. rewrite written_tz by exact Hkey. cbn [fill].
  specialize (Hagg key). specialize (Hr key Hkey). qlra.
Qed.

Lemma update_loc_Forall (P : row -> Prop) (label : Z)
    (f : row -> result row) (df df' : data_frame) :
  (forall r r', f r = Ok r' -> P r -> P r') ->
  update_loc label f df = Ok df' ->
  Forall P (values df) -> Forall P (values df').
Proof.
  intro Hf. revert df'. induction df as [| [d r] rest IH]; intros df' H Hall;
    cbn [update_loc] in H; [discriminate |].
  unfold values in *. cbn [map snd] in Hall. inversion Hall as [| ? ? Hr Hrest].
  subst. destruct (label =? d).
  - destruct (f r) as [r' |] eqn:Ef; [| discriminate]. injection H as <-.
    cbn [map snd]. constructor; [now apply (Hf r) | exact Hrest].
  - destruct (update_loc label f rest) as [rest' |]; [| discriminate].
    injection H as <-. cbn [map snd]. constructor; [exact Hr | now apply IH].
Qed.

Lemma process_activity_nonneg (parse_date : string -> result Z)
    (df df' : data_frame) (a : json) (hr_max : Z) :
  process_activity parse_date df a hr_max = Ok df' ->
  Forall row_nonneg (values df) -> Forall row_nonneg (values df').
Proof.
  rewrite process_activity_unfold. intros H Hall.
  destruct (activity_minutes a hr_max) as [[agg |] |] eqn:Eagg;
    cbn [bind] in H; [| now injection H as <- | discriminate].
  destruct (date_of parse_date a) as [d |]; [| discriminate].
  cbn [bind] in H.
  refine (update_loc_Forall row_nonneg _ _ _ _ _ H Hall).
  intros r r' Hf Hr.
  destruct (getitem a "id") as [i |]; [| discriminate].
  destruct (getitem a "name") as [n |]; [| discriminate].
  cbn [bind] in Hf. injection Hf as <-.
  apply written_nonneg; [| exact Hr].
  now apply (activity_minutes_nonneg a hr_max).
Qed.

Lemma merge_nonneg (parse_date : string -> result Z) (data : list json)
    (hr_max today : Z) (df : data_frame) :
  merge_activities parse_date data hr_max today = Ok df ->
  Forall row_nonneg (values df).
Proof.
  unfold merge_activities, make_frame. intro H.
  destruct data as [| first rest]; [discriminate |].
  destruct (date_of parse_date first) as [d0 |]; [| discriminate].
  cbn [bind] in H.
  assert (Hinit : Forall row_nonneg
                    (values (map (fun d => (d, empty_row))
                                 (date_range d0 today)))).
  { apply Forall_forall. intros r Hr. unfold values in Hr.
    rewrite map_map in Hr. apply in_map_iff in Hr.
    destruct Hr as (d & <- & _). intros key _.
    assert (E : get_tz key empty_row = None).
    { destruct key as [| p | p]; try reflexivity.
      do 3 (destruct p; try reflexivity). }
    cbn [snd]. rewrite E. apply Qle_refl. }
  revert H Hinit. generalize (map (fun d => (d, empty_row)) (date_range d0 today)).
  generalize (first :: rest) as l.
  induction l as [| a l IH]; intros df0 H Hall; cbn [foldM] in H.
  - now injection H as <-.
  - destruct (process_activity parse_date df0 a hr_max) as [df1 |] eqn:E;
      [| discriminate].
    cbn [bind] in H. apply (IH df1 H).
    now apply (process_activity_nonneg parse_date df0 df1 a hr_max).
Qed.

Lemma calculate_performance_from_In (rows : list (Z * day)) (f g : R)
    (d : Z) (p : perf) :
  In (d, p) (calculate_performance_from f g rows) -> In (d, base p) rows.
Proof.
  revert f g. induction rows as [| [d0 r0] rest IH]; intros f g H; [destruct H |].
  cbn [calculate_performance_from] in H. destruct H as [H | H].
  - injection H as <- <-. now left.
  - right. now apply (IH _ _ H).
Qed.

Lemma main_rows (parse_date : string -> result Z) (data : list json)
    (hr_max today : Z) (t : list (Z * perf)) (d : Z) (p : perf) :
  main parse_date data hr_max today = Ok t ->
  In (d, p) t ->
  exists r, row_nonneg r /\ base p = set_trimp (fillna_row r).
Proof.
  unfold main. intros H Hin.
  destruct (merge_activities parse_date data hr_max today) as [df |] eqn:Edf;
    [| discriminate].
  cbn [bind] in H. injection H as <-.
  unfold finish, calculate_performance in Hin.
  apply calculate_performance_from_In in Hin.
  unfold trimp_column, fillna in Hin. rewrite map_map in Hin.
  apply in_map_iff in Hin. destruct Hin as ([d' r] & Heq & Hr).
  cbn [fst snd] in Heq. injection Heq as _ Hb.
  exists r. split; [| now symmetry].
  pose proof (merge_nonneg _ _ _ _ _ Edf) as Hall.
  rewrite Forall_forall in Hall. apply Hall.
  unfold values. apply in_map_iff. now exists (d', r).
Qed.

Lemma fillna_nonneg (r : row) :
  row_nonneg r ->
  let x := set_trimp (fillna_row r) in
  (0 <= tz0 x /\ 0 <= tz1 x /\ 0 <= tz2 x /\ 0 <= tz3 x /\ 0 <= tz4 x /\
   0 <= tz5 x)%Q.
Proof.
  intro H.
  pose proof (H 0 ltac:(lia)). pose proof (H 1 ltac:(lia)).
  pose proof (H 2 ltac:(lia)). pose proof (H 3 ltac:(lia)).
  pose proof (H 4 ltac:(lia)). pose proof (H 5 ltac:(lia)).
  destruct r. cbn in *. tauto.
Qed.

(** In the finished table no day has negative minutes in any zone,
    and the trimp of a day lies between the minutes it spent in zones
    1 to 5 and five times those minutes. *)
Theorem table_minutes_and_trimp (parse_date : string -> result Z)
    (data : list json) (hr_max today : Z) (t : list (Z * perf))
    (Hmain : main parse_date data hr_max today = Ok t) :
  forall d p, In (d, p) t ->
    let x := base p in
    (0 <= tz0 x /\ 0 <= tz1 x /\ 0 <= tz2 x /\ 0 <= tz3 x /\ 0 <= tz4 x /\
     0 <= tz5 x /\
     tz1 x + tz2 x + tz3 x + tz4 x + tz5 x <= trimp x /\
     trimp x <= 5 * (tz1 x + tz2 x + tz3 x + tz4 x + tz5 x))%Q.
Proof.
  intros d p Hin.
  destruct (main_rows _ _ _ _ _ _ _ Hmain Hin) as (r & Hr & ->).
  pose proof (fillna_nonneg r Hr) as H. cbn zeta in *.
  destruct H as (H0 & H1 & H2 & H3 & H4 & H5).
  repeat (split; [assumption |]).
  cbn [trimp set_trimp]. unfold trimp_of.
  cbn [tz1 tz2 tz3 tz4 tz5 set_trimp] in *.
  split; qlra.
Qed.

Lemma table_minutes_and_trimp_witness :
  main calendar [six_seconds_at_90] 180 738521
  = Ok (finish [(738521, scenario_row)]) /\
  match finish [(738521, scenario_row)] with
  | (_, p) :: _ => (0 <= tz1 (base p) /\ tz1 (base p) <= trimp (base p))%Q
  | [] => False
  end.
Proof.
  assert (Hmain : main calendar [six_seconds_at_90] 180 738521
                  = Ok (finish [(738521, scenario_row)])).
  { unfold main.
    rewrite (scenario_merge 180 738521 [(1, (5 # 60)%Q)]);
      [reflexivity | lia | reflexivity]. }
  split; [exact Hmain |].
  pose proof (table_minutes_and_trimp _ _ _ _ _ Hmain) as H.
  unfold finish, calculate_performance, trimp_column, fillna in *.
  cbn [map fst snd calculate_performance_from] in *.
  specialize (H 738521 _ (or_introl eq_refl)). cbn zeta in H.
  destruct H as (H0 & H1 & H2 & H3 & H4 & H5 & Hlo & _).
  split; [exact H1 | qlra].
Defined.

(** ** Fitness, fatigue and performance *)

Lemma decay_order :
  (0 < exp (-1 / IZR R2) <= exp (-1 / IZR R1))%R.
Proof.
  split; [apply exp_pos |].
  left. apply exp_increasing. unfold R1, R2. rlra.
Qed.

Lemma Q2R_nonneg (q : Q) : (0 <= q)%Q -> (0 <= Q2R q)%R.
Proof.
  intro H. apply Qle_Rle in H.
  replace (Q2R 0) with 0%R in H by (unfold Q2R; cbn; rlra). exact H.
Qed.

Lemma calculate_performance_from_bounds (rows : list (Z * day)) :
  (forall d row, In (d, row) rows -> (0 <= Q2R (trimp row))%R) ->
  forall f g : R,
    (0 <= g <= f)%R ->
    forall d p, In (d, p) (calculate_performance_from f g rows) ->
                (0 <= fatigue p <= fitness p)%R /\ (0 <= performance p)%R.
Proof.
  destruct decay_order as [He2 He12].
  induction rows as [| [d0 r0] rest IH]; intros Htrimp f g Hfg d p Hin;
    [destruct Hin |].
  cbn [calculate_performance_from] in Hin.
  assert (HT : (0 <= Q2R (trimp r0))%R) by (apply (Htrimp d0); now left).
  set (e1 := exp (-1 / IZR R1)) in *. set (e2 := exp (-1 / IZR R2)) in *.
  set (T := Q2R (trimp r0)) in *.
  assert (Hnext : (0 <= g * e2 + T <= f * e1 + T)%R).
  { clearbody e1 e2 T. split; Lra.nra. }
  destruct Hin as [Hin | Hin].
  - injection Hin as _ <-. cbn [fitness fatigue performance].
    split; [exact Hnext |]. unfold K1, K2. rlra.
  - apply (IH (fun d' row H => Htrimp d' row (or_intror H)) _ _ Hnext d p Hin).
Qed.

(** On every day of the finished table fatigue is at least 0 and at
    most fitness, and performance is never negative. *)
Theorem fatigue_never_exceeds_fitness (parse_date : string -> result Z)
    (data : list json) (hr_max today : Z) (t : list (Z * perf))
    (Hmain : main parse_date data hr_max today = Ok t) :
  forall d p, In (d, p) t ->
              (0 <= fatigue p <= fitness p)%R /\ (0 <= performance p)%R.
Proof.
  intros d p Hin.
  pose proof Hmain as Hmain'. unfold main in Hmain'.
  destruct (merge_activities parse_date data hr_max today) as [df |] eqn:Edf;
    [| discriminate].
  cbn [bind] in Hmain'. injection Hmain' as Ht.
  assert (Htrimp : forall d' row,
             In (d', row) (trimp_column (fillna df)) ->
             (0 <= Q2R (trimp row))%R).
  { intros d' row Hrow. apply Q2R_nonneg.
    unfold trimp_column, fillna in Hrow. rewrite map_map in Hrow.
    apply in_map_iff in Hrow. destruct Hrow as ([d'' r] & Heq & Hr).
    cbn [fst snd] in Heq. injection Heq as _ <-.
    pose proof (merge_nonneg _ _ _ _ _ Edf) as Hall.
    rewrite Forall_forall in Hall.
    assert (Hnn : row_nonneg r)
      by (apply Hall; unfold values; apply in_map_iff; now exists (d'', r)).
    pose proof (fillna_nonneg r Hnn) as H. cbn zeta in H.
    destruct H as (H0 & H1 & H2 & H3 & H4 & H5).
    cbn [trimp set_trimp]. unfold trimp_of.
    cbn [tz1 tz2 tz3 tz4 tz5 set_trimp] in *. qlra. }
  subst t. unfold finish, calculate_performance in Hin.
  apply (calculate_performance_from_bounds _ Htrimp 0%R 0%R) with (d := d);
    [rlra | exact Hin].
Qed.

Lemma fatigue_never_exceeds_fitness_witness :
  main calendar [six_seconds_at_90] 180 738521
  = Ok (finish [(738521, scenario_row)]) /\
  match finish [(738521, scenario_row)] with
  | (_, p) :: _ => (0 <= fatigue p <= fitness p)%R /\ (0 <= performance p)%R
  | [] => False
  end.
Proof.
  assert (Hmain : main calendar [six_seconds_at_90] 180 738521
                  = Ok (finish [(738521, scenario_row)])).
  { unfold main.
    rewrite (scenario_merge 180 738521 [(1, (5 # 60)%Q)]);
      [reflexivity | lia | reflexivity]. }
  split; [exact Hmain |].
  pose proof (fatigue_never_exceeds_fitness _ _ _ _ _ Hmain) as H.
  unfold finish, calculate_performance, trimp_column, fillna in *.
  cbn [map fst snd calculate_performance_from] in *.
  exact (H 738521 _ (or_introl eq_refl)).
Defined.

Lemma calculate_performance_from_zero (rows : list (Z * day)) :
  (forall d row, In (d, row) rows -> Q2R (trimp row) = 0%R) ->
  forall f g : R,
    f = 0%R -> g = 0%R ->
    forall d p, In (d, p) (calculate_performance_from f g rows) ->
                fitness p = 0%R /\ fatigue p = 0%R /\ performance p = 0%R.
Proof.
  induction rows as [| [d0 r0] rest IH]; intros Htrimp f g Hf Hg d p Hin;
    [destruct Hin |].
  cbn [calculate_performance_from] in Hin.
  assert (HT : Q2R (trimp r0) = 0%R) by (apply (Htrimp d0); now left).
  assert (Hf' : (f * exp (-1 / IZR R1) + Q2R (trimp r0))%R = 0%R)
    by (rewrite Hf, HT; ring).
  assert (Hg' : (g * exp (-1 / IZR R2) + Q2R (trimp r0))%R = 0%R)
    by (rewrite Hg, HT; ring).
  destruct Hin as [Hin | Hin].
  - injection Hin as _ <-. cbn [fitness fatigue performance].
    rewrite Hf', Hg'. repeat split; ring.
  - apply (IH (fun d' row H => Htrimp d' row (or_intror H)) _ _ Hf' Hg' d p Hin).
Qed.

(** When every activity of the input is skipped for want of a stream,
    the run goes through and the table is zero throughout: every day
    has 0 minutes in each zone, a trimp of 0, and fitness, fatigue and
    performance 0. *)
Theorem no_usable_activity_gives_zero_table
    (parse_date : string -> result Z) (first : json) (rest : list json)
    (hr_max today d0 : Z)
    (Hfirst : date_of parse_date first = Ok d0)
    (Hskip : forall a, In a (first :: rest) ->
                       activity_minutes a hr_max = Ok None) :
  exists t,
    main parse_date (first :: rest) hr_max today = Ok t /\
    index t = date_range d0 today /\
    forall d p, In (d, p) t ->
                base p = set_trimp zero_day /\
                (trimp (base p) == 0)%Q /\
                fitness p = 0%R /\ fatigue p = 0%R /\ performance p = 0%R.
Proof.
  set (frame := map (fun d => (d, empty_row)) (date_range d0 today)).
  assert (Hmerge : merge_activities parse_date (first :: rest) hr_max today
                   = Ok frame).
  { unfold merge_activities, make_frame. rewrite Hfirst. cbn [bind].
    fold frame. revert Hskip. generalize (first :: rest) as l.
    induction l as [| a l IH]; intro Hskip; [reflexivity |].
    cbn [foldM]. rewrite process_activity_unfold.
    rewrite (Hskip a (or_introl eq_refl)). cbn [bind].
    apply IH. intros a' Ha'. apply Hskip. now right. }
  exists (finish frame). split; [unfold main; now rewrite Hmerge |].
  split; [rewrite finish_index; apply index_frame |].
  intros d p Hin. unfold finish, calculate_performance in Hin.
  assert (Hrows : forall d' row,
             In (d', row) (trimp_column (fillna frame)) ->
             row = set_trimp zero_day).
  { intros d' row Hrow. unfold trimp_column, fillna, frame in Hrow.
    rewrite !map_map in Hrow. apply in_map_iff in Hrow.
    destruct Hrow as (d'' & Heq & _). cbn [fst snd] in Heq.
    now injection Heq as _ <-. }
  assert (Hbase : base p = set_trimp zero_day)
    by (apply (Hrows d); now apply calculate_performance_from_In in Hin).
  split; [exact Hbase |]. split; [rewrite Hbase; reflexivity |].
  apply (calculate_performance_from_zero (trimp_column (fillna frame)))
    with (f := 0%R) (g := 0%R) (d := d); try reflexivity; [| exact Hin].
  intros d' row Hrow. rewrite (Hrows d' row Hrow).
  unfold Q2R. cbn. rlra.
Qed.

Lemma no_usable_activity_gives_zero_table_witness :
  exists t,
    main calendar
         [JObj [("id", JInt 1); ("name", JStr "Walk");
                ("start_date", JStr "2023-01-01T08:00:00Z");
                ("streams", JArr [])]] 180 738522 = Ok t /\
    index t = [738521; 738522].
Proof.
  destruct (no_usable_activity_gives_zero_table calendar
              (JObj [("id", JInt 1); ("name", JStr "Walk");
                     ("start_date", JStr "2023-01-01T08:00:00Z");
                     ("streams", JArr [])]) [] 180 738522 738521 eq_refl)
    as (t & Hmain & Hidx & _).
  - intros a [<- | []]. reflexivity.
  - exists t. split; [exact Hmain | exact Hidx].
Defined.

(** ** The stream extractor, once more *)

Lemma get_stream_raises_witness :
  exists e,
    get_stream (JObj [("streams", JArr [JObj []])]) "time" = Raise e /\
    e = KeyError.
Proof.
  exists KeyError.
  assert (H : get_stream (JObj [("streams", JArr [JObj []])]) "time"
              = Raise KeyError) by reflexivity.
  split; [exact H | exact (get_stream_raises _ _ _ H)].
Defined.

(** ** Missing values, from the series to the row *)










(** The trimp of a day does not read its tz0 cell. *)
Lemma trimp_of_ignores_tz0 (d : day) (q : Q) :
  trimp_of (with_tz0 q d) = trimp_of d.
Proof. reflexivity. Qed.

